(** * yaduha-studio: the Pyodide validation script

    A shallow embedding of [src/lib/pyodide/scripts/validate.py] and a
    verification of its behaviour.

    The script has one function, [validate_language]: it puts the package
    directory in front of [sys.path], asks the external [yaduha] loader for
    the language, reads [code], [name] and [sentence_types] off the result
    inside a [try] block guarded by [except Exception], and hands the result
    dictionary to [json.dumps].

    Layout: the Python values and exceptions the function touches; the
    [json] library the function calls (encoder, and a decoder used to read
    the output back); the interpreter monad (process state and raised
    exceptions); [validate_language] itself; the vocabulary of the
    specification and some concrete packages; then the theorems.

    What the model takes for granted about Python:
    - a [str] is a [string] (code points below 256), a [dict] has [str]
      keys, the floats are the three that are not numbers, and there are no
      cyclic containers;
    - an object is a table of attributes: reading an attribute runs no code
      and raises nothing but [AttributeError];
    - exception classes are told apart by name; [str(e)] either returns a
      text or raises, [type(e).__name__] always returns;
    - [json.dumps] either writes a value or refuses it with a [TypeError];
      its other failures (an integer too long to print, nesting too deep)
      are not modelled, and no theorem below says what [json.dumps] raises;
    - the external loader is a parameter: it may return any value, raise any
      exception and change any part of the process state. *)

From Stdlib Require Import String Ascii List ZArith NArith Bool Lia.
From Stdlib Require Import DecimalString.
From Stdlib Require DecimalFacts DecimalPos DecimalZ.
Set Warnings "-register-all".
Import ListNotations.
Local Open Scope list_scope.
Local Open Scope string_scope.

(** ** Python values *)

Module Python.

(** The values that can flow through [validate_language]: what the loader
    may hand back, attribute by attribute, and the result dictionary.  A
    Python [str] is represented by [string], i.e. restricted to code points
    below 256; a [dict] has [str] keys and keeps insertion order; cyclic
    containers are outside the model.  A [float] is one of the three values
    that are not numbers, which [json.dumps] writes as tokens JSON does not
    have; finite floats, written as JSON numbers with a fraction or an
    exponent, are left out.  [PyClass] is a class object (its [__name__] is
    always a [str]); [PyObj] is an instance of a class, given by the class
    name and its attributes. *)
Inductive float_value : Type :=
| NaN
| Infinity (negative : bool).

Inductive pyval : Type :=
| PyNone
| PyBool (b : bool)
| PyInt (z : Z)
| PyFloat (x : float_value)
| PyStr (s : string)
| PyList (items : list pyval)
| PyTuple (items : list pyval)
| PyDict (entries : list (string * pyval))
| PyClass (name : string) (attrs : list (string * pyval))
| PyObj (cls : string) (attrs : list (string * pyval)).

(** [type(v).__name__] *)
Definition type_name (v : pyval) : string :=
  match v with
  | PyNone => "NoneType"
  | PyBool _ => "bool"
  | PyInt _ => "int"
  | PyFloat _ => "float"
  | PyStr _ => "str"
  | PyList _ => "list"
  | PyTuple _ => "tuple"
  | PyDict _ => "dict"
  | PyClass _ _ => "type"
  | PyObj cls _ => cls
  end.

(** An exception class: its own name and the names of its proper ancestors
    (the rest of its method resolution order). *)
Record exn_class : Type := mkClass {
  cls_name : string;
  cls_bases : list string
}.

(** An exception whose [str(e)] returns: its class and the text [str(e)]
    yields. *)
Record exn : Type := mkExn {
  exn_cls : exn_class;
  exn_str : string
}.

(** What a [raise] statement raises: an exception as above, or an exception
    of class [cls] whose [__str__] itself raises [inner]. *)
Inductive raised : Type :=
| Printable (e : exn)
| Unprintable (cls : exn_class) (inner : raised).

Coercion Printable : exn >-> raised.

(** [type(x)] *)
Definition raised_cls (x : raised) : exn_class :=
  match x with
  | Printable e => exn_cls e
  | Unprintable cls _ => cls
  end.

(** [isinstance(e, C)], classes identified by name. *)
Definition isinstance (e : exn) (C : string) : bool :=
  (cls_name (exn_cls e) =? C) || existsb (String.eqb C) (cls_bases (exn_cls e)).

(** Direct subclasses of [Exception], and the two built-in classes that
    derive from [BaseException] only. *)
Definition exception_class (name : string) : exn_class :=
  mkClass name ["Exception"; "BaseException"; "object"].

Definition AttributeError (msg : string) : exn :=
  mkExn (exception_class "AttributeError") msg.
Definition TypeError (msg : string) : exn :=
  mkExn (exception_class "TypeError") msg.
Definition ValueError (msg : string) : exn :=
  mkExn (exception_class "ValueError") msg.
Definition ImportError (msg : string) : exn :=
  mkExn (exception_class "ImportError") msg.
Definition ModuleNotFoundError (msg : string) : exn :=
  mkExn (mkClass "ModuleNotFoundError"
           ["ImportError"; "Exception"; "BaseException"; "object"]) msg.
Definition FileNotFoundError (msg : string) : exn :=
  mkExn (mkClass "FileNotFoundError"
           ["OSError"; "Exception"; "BaseException"; "object"]) msg.
Definition KeyboardInterrupt : exn :=
  mkExn (mkClass "KeyboardInterrupt" ["BaseException"; "object"]) "".

(** [isinstance(x, C)] for what was raised. *)
Definition raised_isinstance (x : raised) (C : string) : bool :=
  isinstance (mkExn (raised_cls x) "") C.

(** The result of evaluating an expression: a value or a raised exception. *)
Inductive outcome (A : Type) : Type :=
| Returns (a : A)
| Raises (e : raised).
Arguments Returns {A} a.
Arguments Raises {A} e.

(** [str(x)] *)
Definition py_str (x : raised) : outcome string :=
  match x with
  | Printable e => Returns (exn_str e)
  | Unprintable _ inner => Raises inner
  end.

Definition obind {A B} (o : outcome A) (k : A -> outcome B) : outcome B :=
  match o with
  | Returns a => k a
  | Raises e => Raises e
  end.

(** Evaluate a list of results left to right; the first raise wins. *)
Fixpoint collect {A} (l : list (outcome A)) : outcome (list A) :=
  match l with
  | [] => Returns []
  | o :: r => obind o (fun a => obind (collect r) (fun r' => Returns (a :: r')))
  end.

Fixpoint assoc {A} (k : string) (l : list (string * A)) : option A :=
  match l with
  | [] => None
  | (k', v) :: r => if k' =? k then Some v else assoc k r
  end.

(** [v.a], for the attribute names the script reads ([code], [name],
    [sentence_types], [__name__]): none of the built-in types defines one
    of them, an instance has what its attribute table lists, and a class
    always has [__name__]. *)
Definition getattr (v : pyval) (a : string) : outcome pyval :=
  match v with
  | PyObj cls attrs =>
      match assoc a attrs with
      | Some x => Returns x
      | None =>
          Raises (AttributeError
                    ("'" ++ cls ++ "' object has no attribute '" ++ a ++ "'"))
      end
  | PyClass name attrs =>
      if a =? "__name__" then Returns (PyStr name)
      else match assoc a attrs with
           | Some x => Returns x
           | None =>
               Raises (AttributeError
                         ("type object '" ++ name ++ "' has no attribute '"
                            ++ a ++ "'"))
           end
  | _ =>
      Raises (AttributeError
                ("'" ++ type_name v ++ "' object has no attribute '" ++ a ++ "'"))
  end.

(** The items [for st in v] runs over. *)
Definition iterate (v : pyval) : outcome (list pyval) :=
  match v with
  | PyList l | PyTuple l => Returns l
  | PyStr s => Returns (map (fun c => PyStr (String c "")) (list_ascii_of_string s))
  | PyDict kvs => Returns (map (fun kv => PyStr (fst kv)) kvs)
  | _ => Raises (TypeError ("'" ++ type_name v ++ "' object is not iterable"))
  end.

(** [list.insert(i, x)] for [i >= 0]: an index past the end appends. *)
Definition list_insert {A} (i : nat) (x : A) (l : list A) : list A :=
  firstn i l ++ x :: skipn i l.

End Python.
Export Python.

(** ** The [json] library *)

Module Json.

(** What the encoder writes: JSON documents, with integers for numbers,
    and, where a float that is not a number stood, a token that JSON does
    not have. *)
Inductive json : Type :=
| JNull
| JBool (b : bool)
| JNum (z : Z)
| JFloat (x : float_value)
| JStr (s : string)
| JArr (items : list json)
| JObj (members : list (string * json)).

Definition dquote : ascii := "034"%char.
Definition backslash : ascii := "\"%char.

(** *** Encoder ([json.dumps] with its default options) *)

(** One lower-case hexadecimal digit, and Python's ['{0:04x}'.format(n)]. *)
Definition hex_digit (n : N) : ascii :=
  if (n <? 10)%N then ascii_of_N (48 + n) else ascii_of_N (87 + n).

Definition hex4 (n : N) : string :=
  String (hex_digit ((n / 4096) mod 16))
    (String (hex_digit ((n / 256) mod 16))
       (String (hex_digit ((n / 16) mod 16))
          (String (hex_digit (n mod 16)) ""))).

(** [ensure_ascii] escaping of one character: the quote, the backslash and
    five control characters have short escapes, printable ASCII stands for
    itself, everything else becomes [\uXXXX].  (In the literals below the
    backslash is an ordinary character.) *)
Definition escape_char (c : ascii) : string :=
  if (c =? dquote)%char then String backslash (String dquote "")
  else if (c =? backslash)%char then "\\"
  else if (c =? "010")%char then "\n"
  else if (c =? "013")%char then "\r"
  else if (c =? "009")%char then "\t"
  else if (c =? "008")%char then "\b"
  else if (c =? "012")%char then "\f"
  else if ((32 <=? N_of_ascii c) && (N_of_ascii c <=? 126))%N then String c ""
  else "\u" ++ hex4 (N_of_ascii c).

Fixpoint escape (s : string) : string :=
  match s with
  | "" => ""
  | String c r => escape_char c ++ escape r
  end.

Definition encode_basestring_ascii (s : string) : string :=
  String dquote (escape s ++ String dquote "").

(** [repr] of an [int]. *)
Definition repr_int (z : Z) : string := NilZero.string_of_int (Z.to_int z).

(** What [allow_nan], on by default, makes of a float that is not a
    number. *)
Definition float_text (x : float_value) : string :=
  match x with
  | NaN => "NaN"
  | Infinity false => "Infinity"
  | Infinity true => "-Infinity"
  end.

(** The text of a document, with the default separators [", "] and [": "]. *)
Fixpoint encode (j : json) : string :=
  match j with
  | JNull => "null"
  | JBool true => "true"
  | JBool false => "false"
  | JNum z => repr_int z
  | JFloat x => float_text x
  | JStr s => encode_basestring_ascii s
  | JArr items => "[" ++ String.concat ", " (map encode items) ++ "]"
  | JObj members =>
      "{" ++ String.concat ", "
               (map (fun kv => encode_basestring_ascii (fst kv) ++ ": "
                                 ++ encode (snd kv)) members)
          ++ "}"
  end.

(** What the encoder makes of a Python value: [None], [bool], [int],
    [float], [str], [list], [tuple] and [dict] are written, anything else is
    refused with a [TypeError]; containers are walked in order. *)
Fixpoint to_json (v : pyval) : outcome json :=
  match v with
  | PyNone => Returns JNull
  | PyBool b => Returns (JBool b)
  | PyInt z => Returns (JNum z)
  | PyFloat x => Returns (JFloat x)
  | PyStr s => Returns (JStr s)
  | PyList items | PyTuple items =>
      obind (collect (map to_json items)) (fun l => Returns (JArr l))
  | PyDict entries =>
      obind (collect (map (fun kv => obind (to_json (snd kv))
                                       (fun j => Returns (fst kv, j))) entries))
            (fun l => Returns (JObj l))
  | PyClass _ _ | PyObj _ _ =>
      Raises (TypeError ("Object of type " ++ type_name v
                           ++ " is not JSON serializable"))
  end.

Definition json_dumps (v : pyval) : outcome string :=
  obind (to_json v) (fun j => Returns (encode j)).

(** *** Decoder

    A reader for JSON text, used to state what the output of
    [validate_language] denotes.  It accepts the JSON grammar with integer
    numbers and characters below 256, and whitespace between tokens; it
    does not accept the tokens [NaN], [Infinity] and [-Infinity], which are
    not JSON. *)

Definition is_ws (c : ascii) : bool :=
  ((c =? " ") || (c =? "009") || (c =? "010") || (c =? "013"))%char.

Fixpoint skip_ws (s : string) : string :=
  match s with
  | String c r => if is_ws c then skip_ws r else s
  | "" => ""
  end.

Definition is_digit (c : ascii) : bool :=
  ((48 <=? N_of_ascii c) && (N_of_ascii c <=? 57))%N.

Definition hex_val (c : ascii) : option N :=
  let n := N_of_ascii c in
  if ((48 <=? n) && (n <=? 57))%N then Some (n - 48)%N
  else if ((97 <=? n) && (n <=? 102))%N then Some (n - 87)%N
  else if ((65 <=? n) && (n <=? 70))%N then Some (n - 55)%N
  else None.

Definition hex4_val (a b c d : ascii) : option N :=
  match hex_val a, hex_val b, hex_val c, hex_val d with
  | Some x, Some y, Some z, Some w => Some (4096 * x + 256 * y + 16 * z + w)%N
  | _, _, _, _ => None
  end.

(** The character a short escape stands for. *)
Definition unescape (e : ascii) : option ascii :=
  if (e =? dquote)%char then Some dquote
  else if (e =? backslash)%char then Some backslash
  else if (e =? "/")%char then Some "/"%char
  else if (e =? "n")%char then Some "010"%char
  else if (e =? "r")%char then Some "013"%char
  else if (e =? "t")%char then Some "009"%char
  else if (e =? "b")%char then Some "008"%char
  else if (e =? "f")%char then Some "012"%char
  else None.

Definition cons_char (c : ascii) (o : option (string * string))
  : option (string * string) :=
  match o with
  | Some (t, r) => Some (String c t, r)
  | None => None
  end.

(** The characters of a string literal, after its opening quote, up to the
    closing quote; returns the string denoted and the text that follows. *)
Fixpoint scan_chars (s : string) : option (string * string) :=
  match s with
  | "" => None
  | String c s1 =>
      if (c =? dquote)%char then Some ("", s1)
      else if (c =? backslash)%char then
        match s1 with
        | "" => None
        | String e s2 =>
            if (e =? "u")%char then
              match s2 with
              | String h1 (String h2 (String h3 (String h4 s3))) =>
                  match hex4_val h1 h2 h3 h4 with
                  | Some n =>
                      if (n <? 256)%N then cons_char (ascii_of_N n) (scan_chars s3)
                      else None
                  | None => None
                  end
              | _ => None
              end
            else
              match unescape e with
              | Some c' => cons_char c' (scan_chars s2)
              | None => None
              end
        end
      else if (N_of_ascii c <? 32)%N then None
      else cons_char c (scan_chars s1)
  end.

(** The longest prefix of digits, and the rest. *)
Fixpoint span_digits (s : string) : string * string :=
  match s with
  | String c r =>
      if is_digit c then let (d, r') := span_digits r in (String c d, r')
      else ("", s)
  | "" => ("", "")
  end.

(** An integer literal: an optional minus sign and digits without a
    superfluous leading zero, not continued by a fraction or an exponent. *)
Definition scan_number (s : string) : option (Z * string) :=
  let (sign, body) :=
    match s with
    | String c r => if (c =? "-")%char then ("-", r) else ("", s)
    | "" => ("", s)
    end in
  let (digits, rest) := span_digits body in
  let leading_zero :=
    match digits with
    | String c (String _ _) => (c =? "0")%char
    | _ => false
    end in
  let continued :=
    match rest with
    | String c _ => ((c =? ".") || (c =? "e") || (c =? "E"))%char
    | "" => false
    end in
  if leading_zero || continued then None
  else match NilZero.int_of_string (sign ++ digits) with
       | Some d => Some (Z.of_int d, rest)
       | None => None
       end.

Fixpoint strip_prefix (p s : string) : option string :=
  match p with
  | "" => Some s
  | String a p' =>
      match s with
      | String b s' => if (a =? b)%char then strip_prefix p' s' else None
      | "" => None
      end
  end.

(** A value, the elements of an array after its bracket, and the members of
    an object after its brace.  [fuel] bounds the number of nested calls. *)
Fixpoint parse_value (fuel : nat) (s : string) {struct fuel}
  : option (json * string) :=
  match fuel with
  | O => None
  | S fuel' =>
      match skip_ws s with
      | "" => None
      | String c r =>
          if (c =? dquote)%char then
            match scan_chars r with
            | Some (t, r') => Some (JStr t, r')
            | None => None
            end
          else if (c =? "[")%char then
            match skip_ws r with
            | "" => None
            | String c' r' =>
                if (c' =? "]")%char then Some (JArr [], r')
                else match parse_elements fuel' r with
                     | Some (l, r'') => Some (JArr l, r'')
                     | None => None
                     end
            end
          else if (c =? "{")%char then
            match skip_ws r with
            | "" => None
            | String c' r' =>
                if (c' =? "}")%char then Some (JObj [], r')
                else match parse_members fuel' r with
                     | Some (l, r'') => Some (JObj l, r'')
                     | None => None
                     end
            end
          else if (c =? "n")%char then
            option_map (pair JNull) (strip_prefix "ull" r)
          else if (c =? "t")%char then
            option_map (pair (JBool true)) (strip_prefix "rue" r)
          else if (c =? "f")%char then
            option_map (pair (JBool false)) (strip_prefix "alse" r)
          else
            match scan_number (String c r) with
            | Some (z, r') => Some (JNum z, r')
            | None => None
            end
      end
  end
with parse_elements (fuel : nat) (s : string) {struct fuel}
  : option (list json * string) :=
  match fuel with
  | O => None
  | S fuel' =>
      match parse_value fuel' s with
      | None => None
      | Some (v, r) =>
          match skip_ws r with
          | "" => None
          | String c r' =>
              if (c =? ",")%char then
                match parse_elements fuel' r' with
                | Some (l, r'') => Some (v :: l, r'')
                | None => None
                end
              else if (c =? "]")%char then Some ([v], r')
              else None
          end
      end
  end
with parse_members (fuel : nat) (s : string) {struct fuel}
  : option (list (string * json) * string) :=
  match fuel with
  | O => None
  | S fuel' =>
      match skip_ws s with
      | "" => None
      | String q r =>
          if (q =? dquote)%char then
            match scan_chars r with
            | None => None
            | Some (k, r1) =>
                match skip_ws r1 with
                | "" => None
                | String c r2 =>
                    if (c =? ":")%char then
                      match parse_value fuel' r2 with
                      | None => None
                      | Some (v, r3) =>
                          match skip_ws r3 with
                          | "" => None
                          | String c' r4 =>
                              if (c' =? ",")%char then
                                match parse_members fuel' r4 with
                                | Some (l, r5) => Some ((k, v) :: l, r5)
                                | None => None
                                end
                              else if (c' =? "}")%char then Some ([(k, v)], r4)
                              else None
                          end
                      end
                    else None
                end
            end
          else None
      end
  end.

(** [json.loads]: one value, possibly surrounded by whitespace, and nothing
    else.  A nested call is made only after a character has been consumed;
    the length of the text is the fuel. *)
Definition json_loads (s : string) : option json :=
  match parse_value (String.length s) s with
  | Some (j, r) => if skip_ws r =? "" then Some j else None
  | None => None
  end.

End Json.
Export Json.

(** ** The interpreter: process state and exceptions *)

Module Runtime.

Section Process.

(** Whatever the process holds besides [sys.path] and the external loader
    may read or change: the files under the package directory, the module
    cache, and so on. *)
Context {E : Type}.

Record world : Type := mkWorld {
  sys_path : list string;
  external : E
}.

(** A statement or expression run in a process state: it returns or raises,
    and leaves a state behind either way. *)
Definition Comp (A : Type) : Type := world -> outcome A * world.

Definition ret {A} (a : A) : Comp A := fun w => (Returns a, w).

Definition raise {A} (e : raised) : Comp A := fun w => (Raises e, w).

Definition bind {A B} (c : Comp A) (k : A -> Comp B) : Comp B :=
  fun w =>
    match c w with
    | (Returns a, w') => k a w'
    | (Raises e, w') => (Raises e, w')
    end.

(** An expression that does not touch the process state. *)
Definition lift {A} (o : outcome A) : Comp A := fun w => (o, w).

(** [try: body / except C as e: handler e] *)
Definition try_except {A} (body : Comp A) (C : string)
    (handler : raised -> Comp A) : Comp A :=
  fun w =>
    match body w with
    | (Returns a, w') => (Returns a, w')
    | (Raises e, w') =>
        if raised_isinstance e C then handler e w' else (Raises e, w')
    end.

(** [sys.path.insert(i, p)] *)
Definition sys_path_insert (i : nat) (p : string) : Comp unit :=
  fun w => (Returns tt, mkWorld (list_insert i p (sys_path w)) (external w)).

End Process.

Arguments world E : clear implicits.
Arguments Comp E A : clear implicits.

Declare Scope comp_scope.
Delimit Scope comp_scope with comp.
Notation "x <- c ;; k" := (bind c (fun x => k))
  (at level 61, c at next level, right associativity) : comp_scope.
Notation "c ;; k" := (bind c (fun _ => k))
  (at level 61, right associativity) : comp_scope.

End Runtime.
Export Runtime.

(** ** The script *)

Module Validate.

Local Open Scope comp_scope.

Section Script.

Context {E : Type}.

(** The external collaborator, [yaduha.loader]: what running the statement
    [from yaduha.loader import LanguageLoader] does, and what evaluating
    [LanguageLoader.load_language_from_source(repo_path)] does.  Both see
    and may change the whole process state, and both may raise anything. *)
Record loader : Type := mkLoader {
  import_LanguageLoader : Comp E unit;
  load_language_from_source : string -> Comp E pyval
}.

Variable yaduha : loader.

(** The body of the [try] block. *)
Definition guarded (repo_path : string) : Comp E pyval :=
  import_LanguageLoader yaduha ;;
  language <- load_language_from_source yaduha repo_path ;;
  code <- lift (getattr language "code") ;;
  name <- lift (getattr language "name") ;;
  sentence_types <- lift (getattr language "sentence_types") ;;
  items <- lift (iterate sentence_types) ;;
  names <- lift (collect (map (fun st => getattr st "__name__") items)) ;;
  ret (PyDict [("valid", PyBool true);
               ("language", code);
               ("name", name);
               ("sentence_types", PyList names)]).

(** The body of the [except Exception as e] clause. *)
Definition handler (e : raised) : Comp E pyval :=
  error <- lift (py_str e) ;;
  ret (PyDict [("valid", PyBool false);
               ("error", PyStr error);
               ("error_type", PyStr (cls_name (raised_cls e)))]).

Definition validate_language (repo_path : string) : Comp E string :=
  sys_path_insert 0 repo_path ;;
  result <- try_except (guarded repo_path) "Exception" handler ;;
  lift (json_dumps result).

End Script.

End Validate.
Export Validate.

(** * Specification vocabulary *)

(** ** Records, documents and schemas *)

Module Spec.

(** The two records the function builds. *)
Definition success_record (code name : pyval) (names : list pyval) : pyval :=
  PyDict [("valid", PyBool true);
          ("language", code);
          ("name", name);
          ("sentence_types", PyList names)].

Definition failure_record (e : exn) : pyval :=
  PyDict [("valid", PyBool false);
          ("error", PyStr (exn_str e));
          ("error_type", PyStr (cls_name (exn_cls e)))].

(** The documents they are written as. *)
Definition success_json (language name : json) (sentence_types : list json) : json :=
  JObj [("valid", JBool true);
        ("language", language);
        ("name", name);
        ("sentence_types", JArr sentence_types)].

Definition failure_json (error error_type : string) : json :=
  JObj [("valid", JBool false);
        ("error", JStr error);
        ("error_type", JStr error_type)].

(** The field-extraction step: everything the [try] block does with the
    loaded object. *)
Definition extract_fields (language : pyval) : outcome pyval :=
  obind (getattr language "code") (fun code =>
  obind (getattr language "name") (fun name =>
  obind (getattr language "sentence_types") (fun sentence_types =>
  obind (iterate sentence_types) (fun items =>
  obind (collect (map (fun st => getattr st "__name__") items)) (fun names =>
  Returns (success_record code name names)))))).

Section State.

Context {E : Type}.

(** The process state in which the [try] block starts. *)
Definition entry (repo_path : string) (w : world E) : world E :=
  mkWorld (repo_path :: sys_path w) (external w).

(** A collaborator that leaves [sys.path] alone. *)
Definition preserves_sys_path {A} (c : Comp E A) : Prop :=
  forall w, sys_path (snd (c w)) = sys_path w.

(** A failure the [except] clause turns into a record: an instance of
    [Exception] whose [str] returns. *)
Definition reportable (x : raised) : Prop :=
  exists e : exn, x = Printable e /\ isinstance e "Exception" = true.

(** The host calls the function once per request, in the same process:
    the state after a series of requests, whatever each one returned or
    raised. *)
Fixpoint invocations (yaduha : loader) (paths : list string) (w : world E)
  : world E :=
  match paths with
  | [] => w
  | p :: rest => invocations yaduha rest (snd (validate_language yaduha p w))
  end.

End State.

(** *** The declared output schemas *)

Definition is_string (j : json) : bool :=
  match j with JStr _ => true | _ => false end.

Definition is_scalar (j : json) : bool :=
  match j with JArr _ | JObj _ => false | _ => true end.

Definition is_array (j : json) : bool :=
  match j with JArr _ => true | _ => false end.

Definition is_string_array (j : json) : bool :=
  match j with JArr l => forallb is_string l | _ => false end.

Definition is_bool (b : bool) (j : json) : bool :=
  match j with JBool b' => Bool.eqb b b' | _ => false end.

(** The members are exactly the keys [ks] (distinct), in any order. *)
Definition keys_exactly (ks : list string) (j : json) : bool :=
  match j with
  | JObj ms =>
      (length ms =? length ks)%nat
      && forallb (fun k => match assoc k ms with Some _ => true | None => false end) ks
  | _ => false
  end.

Definition field (k : string) (test : json -> bool) (j : json) : bool :=
  match j with
  | JObj ms => match assoc k ms with Some v => test v | None => false end
  | _ => false
  end.

Definition success_keys : list string :=
  ["valid"; "language"; "name"; "sentence_types"].
Definition failure_keys : list string := ["valid"; "error"; "error_type"].

(** Success: [{"valid": true, "language": string, "name": string,
    "sentence_types": [string, ...]}] *)
Definition success_schema (j : json) : bool :=
  keys_exactly success_keys j
  && field "valid" (is_bool true) j
  && field "language" is_string j
  && field "name" is_string j
  && field "sentence_types" is_string_array j.

(** Failure: [{"valid": false, "error": string, "error_type": string}] *)
Definition failure_schema (j : json) : bool :=
  keys_exactly failure_keys j
  && field "valid" (is_bool false) j
  && field "error" is_string j
  && field "error_type" is_string j.

(** A flat object: every member is a scalar, except [sentence_types], which
    is an array of scalars. *)
Definition flat (j : json) : bool :=
  match j with
  | JObj ms =>
      forallb (fun kv =>
                 if fst kv =? "sentence_types" then
                   match snd kv with
                   | JArr l => forallb is_scalar l
                   | v => is_scalar v
                   end
                 else is_scalar (snd kv)) ms
  | _ => false
  end.

(** The same tests on the Python side; the scalars are those JSON has a
    form for. *)
Definition is_str (v : pyval) : bool :=
  match v with PyStr _ => true | _ => false end.

Definition py_container (v : pyval) : bool :=
  match v with PyList _ | PyTuple _ | PyDict _ => true | _ => false end.

Definition py_scalar (v : pyval) : bool :=
  match v with
  | PyNone | PyBool _ | PyInt _ | PyStr _ => true
  | _ => false
  end.

(** *** Text of a document *)

(** The text after a value inside a document written by the encoder: the
    end, a separator or a closing bracket. *)
Definition delimited (rest : string) : bool :=
  match rest with
  | "" => true
  | String c _ => ((c =? ",") || (c =? "]") || (c =? "}"))%char
  end.

Definition no_leading_zero (d : Decimal.uint) : Prop :=
  d = Decimal.D0 Decimal.Nil \/ forall d', d <> Decimal.D0 d'.

(** Text that starts like a number. *)
Definition starts_number (s : string) : bool :=
  match s with
  | String c _ => (c =? "-")%char || is_digit c
  | "" => false
  end.

(** What a document's text starts with is neither blank nor a closing
    bracket. *)
Definition starts_value (s : string) : bool :=
  match s with
  | String c _ => negb (is_ws c || (c =? "]") || (c =? "}"))%char
  | "" => false
  end.

(** A document proper: no token for a float that is not a number. *)
Fixpoint standard (j : json) : bool :=
  match j with
  | JFloat _ => false
  | JArr items => forallb standard items
  | JObj members => forallb (fun kv => standard (snd kv)) members
  | _ => true
  end.

(** The decoder reads a document proper back, and reads nothing from the
    text of anything else. *)
Definition reads_back (j : json) : Prop :=
  forall fuel rest,
    String.length (encode j) <= fuel -> delimited rest = true ->
    parse_value fuel (encode j ++ rest)
    = if standard j then Some (j, rest) else None.

Definition member_text (kv : string * json) : string :=
  encode_basestring_ascii (fst kv) ++ ": " ++ encode (snd kv).

(** Induction on documents, with the hypothesis available for every element
    of an array and every member of an object. *)
Section JsonInduction.

Variable P : json -> Prop.
Hypothesis Hnull : P JNull.
Hypothesis Hbool : forall b, P (JBool b).
Hypothesis Hnum : forall z, P (JNum z).
Hypothesis Hfloat : forall x, P (JFloat x).
Hypothesis Hstr : forall s, P (JStr s).
Hypothesis Harr : forall items, Forall P items -> P (JArr items).
Hypothesis Hobj :
  forall members, Forall (fun kv => P (snd kv)) members -> P (JObj members).

Fixpoint json_nested_ind (j : json) : P j :=
  match j with
  | JNull => Hnull
  | JBool b => Hbool b
  | JNum z => Hnum z
  | JFloat x => Hfloat x
  | JStr s => Hstr s
  | JArr items =>
      Harr items
        ((fix all (l : list json) : Forall P l :=
            match l with
            | [] => Forall_nil P
            | x :: r => Forall_cons x (json_nested_ind x) (all r)
            end) items)
  | JObj members =>
      Hobj members
        ((fix all (l : list (string * json)) : Forall (fun kv => P (snd kv)) l :=
            match l with
            | [] => Forall_nil _
            | kv :: r => Forall_cons kv (json_nested_ind (snd kv)) (all r)
            end) members)
  end.

End JsonInduction.

(** Induction on Python values, with the hypothesis available for every
    item of a list or tuple and every value of a dictionary. *)
Section PyvalInduction.

Variable P : pyval -> Prop.
Hypothesis Hnone : P PyNone.
Hypothesis Hbool : forall b, P (PyBool b).
Hypothesis Hint : forall z, P (PyInt z).
Hypothesis Hfloat : forall x, P (PyFloat x).
Hypothesis Hstr : forall s, P (PyStr s).
Hypothesis Hlist : forall items, Forall P items -> P (PyList items).
Hypothesis Htuple : forall items, Forall P items -> P (PyTuple items).
Hypothesis Hdict :
  forall entries, Forall (fun kv => P (snd kv)) entries -> P (PyDict entries).
Hypothesis Hclass : forall name attrs, P (PyClass name attrs).
Hypothesis Hobj : forall cls attrs, P (PyObj cls attrs).

Fixpoint pyval_nested_ind (v : pyval) : P v :=
  match v with
  | PyNone => Hnone
  | PyBool b => Hbool b
  | PyInt z => Hint z
  | PyFloat x => Hfloat x
  | PyStr s => Hstr s
  | PyList items =>
      Hlist items
        ((fix all (l : list pyval) : Forall P l :=
            match l with
            | [] => Forall_nil P
            | x :: r => Forall_cons x (pyval_nested_ind x) (all r)
            end) items)
  | PyTuple items =>
      Htuple items
        ((fix all (l : list pyval) : Forall P l :=
            match l with
            | [] => Forall_nil P
            | x :: r => Forall_cons x (pyval_nested_ind x) (all r)
            end) items)
  | PyDict entries =>
      Hdict entries
        ((fix all (l : list (string * pyval)) : Forall (fun kv => P (snd kv)) l :=
            match l with
            | [] => Forall_nil _
            | kv :: r => Forall_cons kv (pyval_nested_ind (snd kv)) (all r)
            end) entries)
  | PyClass name attrs => Hclass name attrs
  | PyObj cls attrs => Hobj cls attrs
  end.

End PyvalInduction.

(** The first of the three fields, in the order the script reads them,
    that an attribute table does not have. *)
Definition first_missing (attrs : list (string * pyval)) : option string :=
  find (fun k => match assoc k attrs with Some _ => false | None => true end)
       ["code"; "name"; "sentence_types"].

(** *** Printable text *)

(** A printable ASCII character: from the space to the tilde. *)
Definition printable (c : ascii) : bool :=
  ((32 <=? N_of_ascii c) && (N_of_ascii c <=? 126))%N.

Fixpoint all_printable (s : string) : bool :=
  match s with
  | "" => true
  | String c r => printable c && all_printable r
  end.

End Spec.
Import Spec.

(** ** Concrete packages and loaders *)

Module Examples.

(** The process state besides [sys.path] is, here, the number of packages
    the loader has read so far. *)
Definition process : Type := world nat.

Definition fresh_process : process := mkWorld ["/lib/python311.zip"] 0.

Definition count_load : Comp nat unit :=
  fun w => (Returns tt, mkWorld (sys_path w) (S (external w))).

Definition loader_returning (language : pyval) : loader :=
  mkLoader (ret tt)
    (fun _ => bind count_load (fun _ => ret language)).

Definition loader_raising (e : exn) : loader :=
  mkLoader (ret tt)
    (fun _ => bind count_load (fun _ => raise e)).

(** A well-formed package: code [num], name [Numeric Language], sentence
    types [Declarative] and [Question]. *)
Definition numeric_language : pyval :=
  PyObj "Language"
    [("code", PyStr "num");
     ("name", PyStr "Numeric Language");
     ("sentence_types",
       PyTuple [PyClass "Declarative" []; PyClass "Question" []])].

(** The same package with no code set. *)
Definition codeless_language : pyval :=
  PyObj "Language"
    [("code", PyNone);
     ("name", PyStr "Numeric Language");
     ("sentence_types",
       PyTuple [PyClass "Declarative" []; PyClass "Question" []])].

(** The same package with a name per locale. *)
Definition localized_language : pyval :=
  PyObj "Language"
    [("code", PyStr "num");
     ("name", PyDict [("en", PyStr "Numeric Language")]);
     ("sentence_types",
       PyTuple [PyClass "Declarative" []; PyClass "Question" []])].

(** The same package listing one sentence type by its name instead of the
    class. *)
Definition misdeclared_language : pyval :=
  PyObj "Language"
    [("code", PyStr "num");
     ("name", PyStr "Numeric Language");
     ("sentence_types", PyTuple [PyClass "Declarative" []; PyStr "Question"])].

(** A package whose code is an object of its own class. *)
Definition wrapped_code_language : pyval :=
  PyObj "Language"
    [("code", PyObj "LanguageCode" [("value", PyStr "num")]);
     ("name", PyStr "Numeric Language");
     ("sentence_types",
       PyTuple [PyClass "Declarative" []; PyClass "Question" []])].

(** A package that declares no sentence types at all. *)
Definition typeless_language : pyval :=
  PyObj "Language"
    [("code", PyStr "num");
     ("name", PyStr "Numeric Language");
     ("sentence_types", PyNone)].


(** A failure whose [__str__] divides by zero. *)
Definition unprintable_failure : raised :=
  Unprintable (exception_class "PackageError")
    (mkExn (mkClass "ZeroDivisionError"
              ["ArithmeticError"; "Exception"; "BaseException"; "object"])
       "division by zero").

Definition unprintable_loader : loader :=
  mkLoader (ret tt)
    (fun _ => bind count_load (fun _ => raise unprintable_failure)).

(** An object with none of the three fields. *)
Definition bare_language : pyval := PyObj "Language" [].

(** No [yaduha] on the search path. *)
Definition missing_loader : loader (E := nat) :=
  mkLoader (raise (ModuleNotFoundError "No module named 'yaduha'"))
    (fun _ => ret PyNone).

End Examples.
Import Examples.

(** * Verification *)

(** ** Text *)

Module TextFacts.

Lemma append_assoc (a b c : string) : (a ++ b) ++ c = a ++ (b ++ c).
Proof. induction a as [|x a IH]; simpl; [reflexivity | now rewrite IH]. Qed.

Lemma append_nil_r (a : string) : a ++ "" = a.
Proof. induction a as [|x a IH]; simpl; [reflexivity | now rewrite IH]. Qed.

Lemma length_append (a b : string) :
  String.length (a ++ b) = String.length a + String.length b.
Proof. induction a as [|x a IH]; simpl; [reflexivity | now rewrite IH]. Qed.

End TextFacts.
Import TextFacts.

(** ** The decoder reads back what the encoder writes *)

Module RoundTrip.

(** Case analysis on the 256 characters. *)
Ltac each_char c := destruct c as [[] [] [] [] [] [] [] []].

(** *** Strings *)

Lemma scan_chars_escape_char (c : ascii) (s : string) :
  scan_chars (escape_char c ++ s) = cons_char c (scan_chars s).
Proof.
  each_char c; reflexivity.
Qed.

Lemma scan_chars_escape (s rest : string) :
  scan_chars (escape s ++ String dquote rest) = Some (s, rest).
Proof.
  induction s as [|c s IH]; simpl.
  - reflexivity.
  - rewrite append_assoc, scan_chars_escape_char, IH. reflexivity.
Qed.

Lemma scan_chars_basestring (s rest : string) :
  exists t, encode_basestring_ascii s ++ rest = String dquote t
            /\ scan_chars t = Some (s, rest).
Proof.
  exists (escape s ++ String dquote rest). split.
  - unfold encode_basestring_ascii. simpl. now rewrite append_assoc.
  - apply scan_chars_escape.
Qed.

(** *** Numbers *)

Lemma string_of_uint_nonnil (d : Decimal.uint) :
  d <> Decimal.Nil -> NilZero.string_of_uint d = NilEmpty.string_of_uint d.
Proof. destruct d; [congruence | reflexivity ..]. Qed.

Lemma span_digits_uint (d : Decimal.uint) (rest : string) :
  delimited rest = true ->
  span_digits (NilEmpty.string_of_uint d ++ rest)
  = (NilEmpty.string_of_uint d, rest).
Proof.
  intros Hrest. induction d; simpl; try (rewrite IHd; reflexivity).
  destruct rest as [|c r]; [reflexivity|].
  simpl in Hrest.
  each_char c; try discriminate; reflexivity.
Qed.

Lemma scan_number_uint (neg : bool) (d : Decimal.uint) (rest : string) :
  d <> Decimal.Nil -> no_leading_zero d -> delimited rest = true ->
  scan_number ((if neg then "-" else "") ++ NilEmpty.string_of_uint d ++ rest)
  = Some (Z.of_int (if neg then Decimal.Neg d else Decimal.Pos d), rest).
Proof.
  intros Hnil Hlz Hrest.
  assert (Hcont : match rest with
                  | String c _ => ((c =? ".") || (c =? "e") || (c =? "E"))%char
                  | "" => false
                  end = false).
  { destruct rest as [|c r]; [reflexivity|]. simpl in Hrest.
    each_char c; try discriminate; reflexivity. }
  assert (Hlead : match NilEmpty.string_of_uint d with
                  | String c (String _ _) => (c =? "0")%char
                  | _ => false
                  end = false).
  { destruct Hlz as [-> | Hlz]; [reflexivity|].
    destruct d; try reflexivity; try (simpl; destruct (NilEmpty.string_of_uint d);
      reflexivity).
    exfalso. now apply (Hlz d). }
  assert (Hint : NilZero.int_of_string
                   ((if neg then "-" else "") ++ NilEmpty.string_of_uint d)
                 = Some (if neg then Decimal.Neg d else Decimal.Pos d)).
  { pose proof (NilZero.isi (if neg then Decimal.Neg d else Decimal.Pos d)) as H.
    rewrite <- (string_of_uint_nonnil d Hnil).
    destruct neg; apply H; congruence. }
  unfold scan_number.
  destruct neg.
  - cbn [append Ascii.eqb Bool.eqb].
    rewrite (span_digits_uint d rest Hrest), Hlead, Hcont.
    cbn [orb]. simpl append in Hint. rewrite Hint. reflexivity.
  - simpl append. simpl append in Hint.
    assert (Hhead : forall body,
               match NilEmpty.string_of_uint d ++ rest with
               | String c r => if (c =? "-")%char then ("-", r) else ("", body)
               | "" => ("", body)
               end = ("", body)).
    { intros body. destruct d; try reflexivity. congruence. }
    rewrite Hhead, (span_digits_uint d rest Hrest), Hlead, Hcont.
    cbn [orb]. simpl append. rewrite Hint. reflexivity.
Qed.

Lemma to_uint_no_leading_zero (p : positive) : no_leading_zero (Pos.to_uint p).
Proof.
  right. intros d' Hd.
  pose proof (DecimalPos.Unsigned.to_of (Pos.to_uint p)) as H.
  rewrite DecimalPos.Unsigned.of_to in H.
  change (N.to_uint (N.pos p)) with (Pos.to_uint p) in H.
  destruct (Decimal.nzhead (Pos.to_uint p)) eqn:Hh.
  1: { unfold Decimal.unorm in H. rewrite Hh in H.
       now apply (DecimalPos.Unsigned.to_uint_nonzero p). }
  all: rewrite DecimalFacts.unorm_nzhead in H by (rewrite Hh; discriminate).
  all: apply (DecimalFacts.nzhead_nonzero (Pos.to_uint p) d').
  all: now rewrite <- H.
Qed.

Lemma repr_int_shape (z : Z) :
  exists (neg : bool) (d : Decimal.uint),
    d <> Decimal.Nil /\ no_leading_zero d
    /\ repr_int z = (if neg then "-" else "") ++ NilEmpty.string_of_uint d
    /\ Z.of_int (if neg then Decimal.Neg d else Decimal.Pos d) = z.
Proof.
  destruct z as [|p|p].
  - exists false, (Decimal.D0 Decimal.Nil).
    repeat split; try reflexivity; [discriminate | now left].
  - exists false, (Pos.to_uint p).
    pose proof (DecimalPos.Unsigned.to_uint_nonnil p) as Hn.
    repeat split; auto using to_uint_no_leading_zero.
    + unfold repr_int. simpl. now apply string_of_uint_nonnil.
    + apply (DecimalZ.of_to (Z.pos p)).
  - exists true, (Pos.to_uint p).
    pose proof (DecimalPos.Unsigned.to_uint_nonnil p) as Hn.
    repeat split; auto using to_uint_no_leading_zero.
    + unfold repr_int. simpl. f_equal. now apply string_of_uint_nonnil.
    + apply (DecimalZ.of_to (Z.neg p)).
Qed.

Lemma scan_number_repr (z : Z) (rest : string) :
  delimited rest = true ->
  scan_number (repr_int z ++ rest) = Some (z, rest).
Proof.
  intros Hrest.
  destruct (repr_int_shape z) as (neg & d & Hnil & Hlz & Hrepr & Hz).
  rewrite Hrepr, append_assoc, scan_number_uint, Hz by assumption.
  reflexivity.
Qed.

(** *** Documents *)

(** One unfolding of each reader. *)
Lemma parse_value_string (f : nat) (r : string) :
  parse_value (S f) (String dquote r)
  = match scan_chars r with
    | Some (t, r') => Some (JStr t, r')
    | None => None
    end.
Proof. reflexivity. Qed.

Lemma parse_value_array (f : nat) (r : string) :
  parse_value (S f) (String "[" r)
  = match skip_ws r with
    | "" => None
    | String c' r' =>
        if (c' =? "]")%char then Some (JArr [], r')
        else match parse_elements f r with
             | Some (l, r'') => Some (JArr l, r'')
             | None => None
             end
    end.
Proof. reflexivity. Qed.

Lemma parse_value_object (f : nat) (r : string) :
  parse_value (S f) (String "{" r)
  = match skip_ws r with
    | "" => None
    | String c' r' =>
        if (c' =? "}")%char then Some (JObj [], r')
        else match parse_members f r with
             | Some (l, r'') => Some (JObj l, r'')
             | None => None
             end
    end.
Proof. reflexivity. Qed.

Lemma parse_elements_eq (f : nat) (s : string) :
  parse_elements (S f) s
  = match parse_value f s with
    | None => None
    | Some (v, r) =>
        match skip_ws r with
        | "" => None
        | String c r' =>
            if (c =? ",")%char then
              match parse_elements f r' with
              | Some (l, r'') => Some (v :: l, r'')
              | None => None
              end
            else if (c =? "]")%char then Some ([v], r')
            else None
        end
    end.
Proof. reflexivity. Qed.

Lemma parse_members_eq (f : nat) (r : string) :
  parse_members (S f) (String dquote r)
  = match scan_chars r with
    | None => None
    | Some (k, r1) =>
        match skip_ws r1 with
        | "" => None
        | String c r2 =>
            if (c =? ":")%char then
              match parse_value f r2 with
              | None => None
              | Some (v, r3) =>
                  match skip_ws r3 with
                  | "" => None
                  | String c' r4 =>
                      if (c' =? ",")%char then
                        match parse_members f r4 with
                        | Some (l, r5) => Some ((k, v) :: l, r5)
                        | None => None
                        end
                      else if (c' =? "}")%char then Some ([(k, v)], r4)
                      else None
                  end
              end
            else None
        end
    end.
Proof. reflexivity. Qed.

(** A blank before a value, an element or a member is skipped. *)
Lemma parse_value_blank (f : nat) (s : string) :
  parse_value f (String " " s) = parse_value f s.
Proof. destruct f; reflexivity. Qed.

Lemma parse_elements_blank (f : nat) (s : string) :
  parse_elements f (String " " s) = parse_elements f s.
Proof.
  destruct f; [reflexivity|]. now rewrite !parse_elements_eq, parse_value_blank.
Qed.

Lemma parse_members_blank (f : nat) (s : string) :
  parse_members f (String " " s) = parse_members f s.
Proof. destruct f; reflexivity. Qed.

Lemma parse_value_number (f : nat) (s : string) :
  starts_number s = true ->
  parse_value (S f) s
  = match scan_number s with
    | Some (z, r') => Some (JNum z, r')
    | None => None
    end.
Proof.
  destruct s as [|c r]; [discriminate|]. simpl starts_number.
  each_char c; try discriminate; reflexivity.
Qed.

Lemma repr_int_starts_number (z : Z) (rest : string) :
  starts_number (repr_int z ++ rest) = true.
Proof.
  destruct (repr_int_shape z) as (neg & d & Hnil & _ & -> & _).
  destruct neg; [reflexivity|].
  destruct d; [congruence | reflexivity ..].
Qed.

Lemma encode_starts_value (j : json) (rest : string) :
  starts_value (encode j ++ rest) = true.
Proof.
  destruct j as [|[]|z|[|[]]|s|l|l]; try reflexivity.
  pose proof (repr_int_starts_number z rest) as H.
  simpl encode. destruct (repr_int z ++ rest) as [|c r]; [discriminate|].
  simpl in *. each_char c; try discriminate; reflexivity.
Qed.

Lemma skip_ws_value (s : string) :
  starts_value s = true ->
  exists c r, skip_ws s = String c r /\ s = String c r
              /\ (c =? "]")%char = false /\ (c =? "}")%char = false.
Proof.
  destruct s as [|c r]; [discriminate|]. simpl. intros H.
  exists c, r.
  destruct (is_ws c); [discriminate|].
  destruct (c =? "]")%char; [discriminate|].
  destruct (c =? "}")%char; [discriminate|]. auto.
Qed.

Lemma concat_cons2 (sep a b : string) (t : list string) :
  String.concat sep (a :: b :: t) = a ++ sep ++ String.concat sep (b :: t).
Proof. reflexivity. Qed.

Lemma parse_elements_encode (l : list json) :
  Forall reads_back l -> l <> [] ->
  forall fuel rest,
    S (String.length (String.concat ", " (map encode l))) <= fuel ->
    parse_elements fuel (String.concat ", " (map encode l) ++ String "]" rest)
    = if forallb standard l then Some (l, rest) else None.
Proof.
  induction 1 as [|x l' Hx Hl IH]; [congruence|].
  intros _ fuel rest Hf.
  destruct fuel as [|fuel]; [lia|].
  rewrite parse_elements_eq.
  destruct l' as [|y l''].
  - simpl map in *. simpl String.concat in *.
    rewrite (Hx fuel (String "]" rest)) by (reflexivity || lia).
    cbn [forallb]. destruct (standard x); reflexivity.
  - simpl map in *. rewrite concat_cons2 in *.
    set (C := String.concat ", " (_ :: _)) in *.
    rewrite !length_append in Hf. simpl String.length in Hf.
    rewrite !append_assoc. simpl append at 2.
    rewrite (Hx fuel) by (reflexivity || lia).
    change (forallb standard (x :: y :: l''))
      with (standard x && forallb standard (y :: l'')).
    destruct (standard x); [|reflexivity].
    simpl skip_ws. cbv iota beta. simpl Ascii.eqb. cbv iota.
    rewrite parse_elements_blank.
    rewrite IH by (congruence || lia).
    cbn [andb]. destruct (forallb standard (y :: l'')); reflexivity.
Qed.

Lemma parse_members_encode (l : list (string * json)) :
  Forall (fun kv => reads_back (snd kv)) l -> l <> [] ->
  forall fuel rest,
    S (String.length (String.concat ", " (map member_text l))) <= fuel ->
    parse_members fuel (String.concat ", " (map member_text l) ++ String "}" rest)
    = if forallb (fun kv => standard (snd kv)) l then Some (l, rest) else None.
Proof.
  induction 1 as [|[k v] l' Hx Hl IH]; [congruence|].
  intros _ fuel rest Hf. simpl snd in Hx.
  destruct fuel as [|fuel]; [lia|].
  assert (Hmember : forall tail,
             delimited tail = true ->
             String.length (encode v) <= fuel ->
             parse_members (S fuel) (member_text (k, v) ++ tail)
             = if standard v then
                 match skip_ws tail with
                 | "" => None
                 | String c' r4 =>
                     if (c' =? ",")%char then
                       match parse_members fuel r4 with
                       | Some (l, r5) => Some ((k, v) :: l, r5)
                       | None => None
                       end
                     else if (c' =? "}")%char then Some ([(k, v)], r4)
                     else None
                 end
               else None).
  { intros tail Htail Hlen. unfold member_text, encode_basestring_ascii.
    simpl fst. simpl snd. simpl append at 1.
    rewrite !append_assoc. simpl append at 2. simpl append at 2.
    rewrite parse_members_eq, scan_chars_escape.
    simpl skip_ws at 1. cbv iota beta. simpl Ascii.eqb. cbv iota.
    rewrite parse_value_blank, (Hx fuel tail Hlen Htail).
    destruct (standard v); reflexivity. }
  destruct l' as [|y l''].
  - simpl map in *. simpl String.concat in *.
    unfold member_text in Hf at 1. simpl fst in Hf. simpl snd in Hf.
    rewrite !length_append in Hf.
    rewrite Hmember by (reflexivity || lia).
    cbn [forallb snd]. destruct (standard v); reflexivity.
  - simpl map in *. rewrite concat_cons2 in *.
    set (C := String.concat ", " (_ :: _)) in *.
    unfold member_text in Hf at 1. simpl fst in Hf. simpl snd in Hf.
    rewrite !length_append in Hf. simpl String.length in Hf.
    rewrite !append_assoc. simpl append at 2.
    rewrite Hmember by (reflexivity || lia).
    change (forallb (fun kv => standard (snd kv)) ((k, v) :: y :: l''))
      with (standard v && forallb (fun kv => standard (snd kv)) (y :: l'')).
    destruct (standard v); [|reflexivity].
    simpl skip_ws. cbv iota beta. simpl Ascii.eqb. cbv iota.
    rewrite parse_members_blank.
    rewrite IH by (congruence || lia).
    cbn [andb].
    destruct (forallb (fun kv => standard (snd kv)) (y :: l'')); reflexivity.
Qed.

Lemma encode_obj_text (members : list (string * json)) :
  encode (JObj members)
  = "{" ++ String.concat ", " (map member_text members) ++ "}".
Proof. reflexivity. Qed.

Lemma parse_value_encode (j : json) : reads_back j.
Proof.
  induction j as [| b | z | x | s | items IH | members IH] using json_nested_ind;
    intros fuel rest Hf Hrest.
  - destruct fuel; [simpl in Hf; lia | reflexivity].
  - destruct fuel; [destruct b; simpl in Hf; lia | destruct b; reflexivity].
  - assert (Hlen : 0 < String.length (encode (JNum z))).
    { pose proof (repr_int_starts_number z "") as H.
      rewrite append_nil_r in H. simpl encode.
      destruct (repr_int z); [discriminate | simpl; lia]. }
    destruct fuel as [|fuel]; [lia|].
    simpl encode.
    rewrite parse_value_number by apply repr_int_starts_number.
    now rewrite scan_number_repr.
  - destruct fuel as [|fuel]; [destruct x as [|[]]; simpl in Hf; lia|].
    destruct x as [|[]]; reflexivity.
  - destruct fuel as [|fuel]; [simpl in Hf; lia|].
    simpl encode.
    destruct (scan_chars_basestring s rest) as (t & -> & Ht).
    now rewrite parse_value_string, Ht.
  - destruct fuel as [|fuel]; [simpl in Hf; lia|].
    simpl encode in *. simpl append. rewrite append_assoc. simpl append at 2.
    rewrite parse_value_array.
    destruct items as [|x items'].
    + reflexivity.
    + set (C := String.concat ", " _) in *.
      assert (Hstart : starts_value (C ++ String "]" rest) = true).
      { subst C. simpl map. destruct (map encode items').
        - apply encode_starts_value.
        - rewrite concat_cons2, append_assoc. apply encode_starts_value. }
      destruct (skip_ws_value _ Hstart) as (c & r & -> & _ & -> & _).
      simpl String.length in Hf. rewrite length_append in Hf. simpl in Hf.
      subst C. rewrite parse_elements_encode by (assumption || congruence || lia).
      change (standard (JArr (x :: items')))
        with (forallb standard (x :: items')).
      destruct (forallb standard (x :: items')); reflexivity.
  - destruct fuel as [|fuel]; [simpl in Hf; lia|].
    rewrite encode_obj_text in *. simpl append. rewrite append_assoc.
    simpl append at 2. rewrite parse_value_object.
    destruct members as [|[k v] members'].
    + reflexivity.
    + set (C := String.concat ", " _) in *.
      assert (Hstart : starts_value (C ++ String "}" rest) = true).
      { subst C. simpl map. destruct (map member_text members'); reflexivity. }
      destruct (skip_ws_value _ Hstart) as (c & r & -> & _ & _ & ->).
      simpl String.length in Hf. rewrite length_append in Hf. simpl in Hf.
      subst C. rewrite parse_members_encode by (assumption || congruence || lia).
      change (standard (JObj ((k, v) :: members')))
        with (forallb (fun kv => standard (snd kv)) ((k, v) :: members')).
      destruct (forallb (fun kv => standard (snd kv)) ((k, v) :: members'));
        reflexivity.
Qed.

(** Reading what the encoder wrote gives the document back when it is a
    document proper, and nothing otherwise. *)
Theorem json_loads_encode_gen (j : json) :
  json_loads (encode j) = if standard j then Some j else None.
Proof.
  unfold json_loads.
  pose proof (parse_value_encode j (String.length (encode j)) "") as H.
  rewrite append_nil_r in H. rewrite H by (reflexivity || lia).
  destruct (standard j); reflexivity.
Qed.

Theorem json_loads_encode (j : json) :
  standard j = true -> json_loads (encode j) = Some j.
Proof. intros H. now rewrite json_loads_encode_gen, H. Qed.

(** So a text the encoder wrote and the decoder reads denotes the document
    that was written. *)
Lemma json_loads_encode_inv (j j' : json) :
  json_loads (encode j) = Some j' -> j' = j /\ standard j = true.
Proof.
  rewrite json_loads_encode_gen. destruct (standard j); [|discriminate].
  intros [= <-]. auto.
Qed.

End RoundTrip.
Import RoundTrip.

(** ** What [json.dumps] returns *)

Module DumpsFacts.

Lemma json_dumps_returns (v : pyval) (s : string) :
  json_dumps v = Returns s ->
  exists j, to_json v = Returns j /\ s = encode j
            /\ json_loads s = if standard j then Some j else None.
Proof.
  unfold json_dumps. destruct (to_json v) as [j|e]; simpl; [|discriminate].
  intros [= <-]. exists j. auto using json_loads_encode_gen.
Qed.

Lemma collect_returns {A} (l : list (outcome A)) (r : list A) :
  collect l = Returns r <-> l = map Returns r.
Proof.
  revert r. induction l as [|o l IH]; intros r; simpl.
  - split; [intros [= <-]; reflexivity | destruct r; [reflexivity | discriminate]].
  - destruct o as [a|e]; simpl.
    + destruct (collect l) as [r'|e'] eqn:Hc; simpl.
      * split.
        -- intros [= <-]. simpl. f_equal. now apply IH.
        -- destruct r as [|a' r'']; [discriminate|]. simpl. intros [= -> Hl].
           apply IH in Hl. congruence.
      * split; [discriminate|].
        destruct r as [|a' r'']; [discriminate|]. simpl. intros [= -> Hl].
        apply IH in Hl. discriminate.
    + split; [discriminate|]. destruct r; discriminate.
Qed.

(** The first element that raises decides what [collect] raises. *)
Lemma collect_raises {A} (l : list (outcome A)) :
  (exists e, In (Raises e) l) ->
  exists e, collect l = Raises e /\ In (Raises e) l.
Proof.
  induction l as [|o l IH]; intros (e & Hin); [destruct Hin|].
  destruct o as [a|e0].
  - destruct Hin as [Heq | Hin]; [discriminate|].
    destruct IH as (e' & Hc & Hin'); [eauto|].
    exists e'. simpl. rewrite Hc. auto.
  - exists e0. simpl. auto.
Qed.

Lemma collect_outcome {A} (l : list (outcome A)) :
  (exists r, collect l = Returns r) \/ (exists e, collect l = Raises e /\ In (Raises e) l).
Proof.
  induction l as [|o l IH]; [left; exists []; reflexivity|].
  destruct o as [a|e0]; simpl.
  - destruct IH as [(r & ->) | (e & -> & Hin)]; [left | right]; simpl; eauto.
  - right; eauto.
Qed.

End DumpsFacts.
Import DumpsFacts.

(** ** Documents of the two records *)

Module SchemaFacts.

Lemma to_json_is_string (v : pyval) (j : json) :
  to_json v = Returns j -> is_string j = is_str v.
Proof.
  destruct v; simpl; try (intros [= <-]; reflexivity); try discriminate.
  - destruct (collect _); simpl; [intros [= <-]; reflexivity | discriminate].
  - destruct (collect _); simpl; [intros [= <-]; reflexivity | discriminate].
  - destruct (collect _); simpl; [intros [= <-]; reflexivity | discriminate].
Qed.

(** A scalar that JSON has a form for is written as a scalar of a document
    proper, a container as a container. *)
Lemma to_json_scalar (v : pyval) (j : json) :
  to_json v = Returns j -> py_scalar v = true ->
  is_scalar j = true /\ standard j = true.
Proof.
  destruct v; simpl; try discriminate; intros [= <-] _; auto.
Qed.

Lemma to_json_container (v : pyval) (j : json) :
  to_json v = Returns j -> py_container v = true -> is_scalar j = false.
Proof.
  destruct v; simpl; try discriminate.
  - destruct (collect _); simpl; [intros [= <-]; reflexivity | discriminate].
  - destruct (collect _); simpl; [intros [= <-]; reflexivity | discriminate].
  - destruct (collect _); simpl; [intros [= <-]; reflexivity | discriminate].
Qed.

Lemma to_json_forallb (test : json -> bool) (ptest : pyval -> bool) :
  (forall v j, to_json v = Returns j -> test j = ptest v) ->
  forall vs js, map to_json vs = map Returns js ->
                forallb test js = forallb ptest vs.
Proof.
  intros H vs. induction vs as [|v vs IH]; intros [|j js]; simpl;
    try discriminate; [reflexivity|].
  intros [= Hv Hvs]. now rewrite (H v j Hv), (IH js Hvs).
Qed.

Lemma to_json_forallb_true (test : json -> bool) (ptest : pyval -> bool) :
  (forall v j, to_json v = Returns j -> ptest v = true -> test j = true) ->
  forall vs js, map to_json vs = map Returns js ->
                forallb ptest vs = true -> forallb test js = true.
Proof.
  intros H vs. induction vs as [|v vs IH]; intros [|j js]; simpl;
    try discriminate; [reflexivity|].
  intros [= Hv Hvs] Hp. apply andb_true_iff in Hp. destruct Hp as (Hp & Hps).
  now rewrite (H v j Hv Hp), (IH js Hvs Hps).
Qed.

Lemma to_json_existsb_container (vs : list pyval) (js : list json) :
  map to_json vs = map Returns js ->
  existsb py_container vs = true -> forallb is_scalar js = false.
Proof.
  revert js. induction vs as [|v vs IH]; intros [|j js]; simpl;
    try discriminate.
  intros [= Hv Hvs] H. apply orb_true_iff in H. destruct H as [H | H].
  - now rewrite (to_json_container _ _ Hv H).
  - rewrite (IH js Hvs H). apply andb_false_r.
Qed.

Lemma is_string_standard (j : json) : is_string j = true -> standard j = true.
Proof. destruct j; simpl; congruence. Qed.

Lemma forallb_impl {A} (p q : A -> bool) (l : list A) :
  (forall x, p x = true -> q x = true) ->
  forallb p l = true -> forallb q l = true.
Proof.
  intros H. induction l as [|x l IH]; simpl; [reflexivity|].
  intros Hp. apply andb_true_iff in Hp. destruct Hp as (Hx & Hl).
  now rewrite (H x Hx), (IH Hl).
Qed.

Lemma success_json_standard (jc jn : json) (jts : list json) :
  standard (success_json jc jn jts)
  = standard jc && standard jn && forallb standard jts.
Proof.
  simpl. now rewrite andb_true_r, andb_assoc.
Qed.

Lemma strings_standard (l : list string) : forallb standard (map JStr l) = true.
Proof. induction l as [|x l IH]; simpl; auto. Qed.

(** The text of a Failure record is always read back. *)
Lemma json_loads_failure (error error_type : string) :
  json_loads (encode (failure_json error error_type))
  = Some (failure_json error error_type).
Proof. now apply json_loads_encode. Qed.

(** The document a success record is written as. *)
Lemma to_json_success (code name : pyval) (names : list pyval) (j : json) :
  to_json (success_record code name names) = Returns j ->
  exists jc jn jts,
    to_json code = Returns jc /\ to_json name = Returns jn
    /\ map to_json names = map Returns jts
    /\ j = success_json jc jn jts.
Proof.
  unfold success_record. simpl.
  destruct (to_json code) as [jc|]; simpl; [|discriminate].
  destruct (to_json name) as [jn|]; simpl; [|discriminate].
  destruct (collect (map to_json names)) as [jts|] eqn:Hc; simpl; [|discriminate].
  intros [= <-]. apply collect_returns in Hc.
  exists jc, jn, jts. auto.
Qed.

Lemma json_dumps_success (code name : pyval) (names : list pyval)
    (jc jn : json) (jts : list json) :
  to_json code = Returns jc -> to_json name = Returns jn ->
  map to_json names = map Returns jts ->
  json_dumps (success_record code name names)
  = Returns (encode (success_json jc jn jts)).
Proof.
  intros Hc Hn Hts. unfold json_dumps, success_record. simpl.
  rewrite Hc, Hn. simpl. rewrite Hts.
  rewrite (proj2 (collect_returns _ _) eq_refl). reflexivity.
Qed.

End SchemaFacts.
Import SchemaFacts.

(** ** The shape of a run of [validate_language] *)

Module ScriptFacts.

Section Run.

Context {E : Type}.
Variable yaduha : loader (E := E).

Lemma guarded_eq (repo_path : string) (w0 : world E) :
  guarded yaduha repo_path w0
  = match import_LanguageLoader yaduha w0 with
    | (Raises e, w1) => (Raises e, w1)
    | (Returns _, w1) =>
        match load_language_from_source yaduha repo_path w1 with
        | (Raises e, w2) => (Raises e, w2)
        | (Returns language, w2) => (extract_fields language, w2)
        end
    end.
Proof.
  unfold guarded, bind, lift, ret, extract_fields.
  destruct (import_LanguageLoader yaduha w0) as [[[]|e] w1]; [|reflexivity].
  destruct (load_language_from_source yaduha repo_path w1) as [[language|e] w2];
    [|reflexivity].
  destruct (getattr language "code"); cbn [obind]; [|reflexivity].
  destruct (getattr language "name"); cbn [obind]; [|reflexivity].
  destruct (getattr language "sentence_types") as [sts|]; cbn [obind];
    [|reflexivity].
  destruct (iterate sts) as [items|]; cbn [obind]; [|reflexivity].
  destruct (collect _); reflexivity.
Qed.

(** The three ways through the function: the [try] block completes and the
    record goes to [json.dumps]; it fails with something the [except]
    clause takes, and then [str] returns and the record goes to
    [json.dumps], or [str] raises; it fails with something else. *)
Lemma validate_language_eq (repo_path : string) (w : world E) :
  validate_language yaduha repo_path w
  = match guarded yaduha repo_path (entry repo_path w) with
    | (Returns result, w') => (json_dumps result, w')
    | (Raises x, w') =>
        if raised_isinstance x "Exception" then
          match x with
          | Printable e => (json_dumps (failure_record e), w')
          | Unprintable _ inner => (Raises inner, w')
          end
        else (Raises x, w')
    end.
Proof.
  unfold validate_language, bind, try_except, sys_path_insert, lift, handler, ret.
  change (list_insert 0 repo_path (sys_path w)) with (repo_path :: sys_path w).
  fold (entry repo_path w).
  destruct (guarded yaduha repo_path (entry repo_path w)) as [[r|x] w'];
    [reflexivity|].
  destruct (raised_isinstance x "Exception"); [|reflexivity].
  destruct x; reflexivity.
Qed.

Lemma json_dumps_failure (e : exn) :
  json_dumps (failure_record e)
  = Returns (encode (failure_json (exn_str e) (cls_name (exn_cls e)))).
Proof. reflexivity. Qed.

(** A failure of the [try] block that is an [Exception] is reported... *)
Lemma validate_language_caught (repo_path : string) (w w' : world E) (e : exn) :
  guarded yaduha repo_path (entry repo_path w) = (Raises e, w') ->
  isinstance e "Exception" = true ->
  validate_language yaduha repo_path w
  = (Returns (encode (failure_json (exn_str e) (cls_name (exn_cls e)))), w').
Proof.
  intros Hg He. rewrite validate_language_eq, Hg.
  change (raised_isinstance e "Exception") with (isinstance e "Exception").
  now rewrite He, json_dumps_failure.
Qed.


Lemma validate_language_dumps (repo_path : string) (w w' : world E) (r : pyval) :
  guarded yaduha repo_path (entry repo_path w) = (Returns r, w') ->
  validate_language yaduha repo_path w = (json_dumps r, w').
Proof.
  intros Hg. now rewrite validate_language_eq, Hg.
Qed.

(** The state a run leaves is the state its [try] block leaves. *)
Lemma validate_language_state (repo_path : string) (w : world E) :
  snd (validate_language yaduha repo_path w)
  = snd (guarded yaduha repo_path (entry repo_path w)).
Proof.
  rewrite validate_language_eq.
  destruct (guarded yaduha repo_path (entry repo_path w)) as [[r|x] w'];
    [reflexivity|].
  destruct (raised_isinstance x "Exception"); [|reflexivity].
  destruct x; reflexivity.
Qed.

Lemma guarded_preserves_sys_path (repo_path : string) :
  preserves_sys_path (import_LanguageLoader yaduha) ->
  (forall p, preserves_sys_path (load_language_from_source yaduha p)) ->
  preserves_sys_path (guarded yaduha repo_path).
Proof.
  intros Himp Hload w0. rewrite guarded_eq.
  specialize (Himp w0).
  destruct (import_LanguageLoader yaduha w0) as [[[]|e] w1]; [|exact Himp].
  specialize (Hload repo_path w1).
  destruct (load_language_from_source yaduha repo_path w1) as [[language|e] w2];
    simpl in *; congruence.
Qed.

End Run.

(** What the field accesses can raise. *)
Lemma getattr_raises (v : pyval) (a : string) (x : raised) :
  getattr v a = Raises x ->
  exists e : exn, x = Printable e
                  /\ exn_cls e = exception_class "AttributeError".
Proof.
  destruct v; simpl; try (intros [= <-]; eexists; split; reflexivity).
  - destruct (a =? "__name__"); [discriminate|].
    destruct (assoc a attrs); [discriminate|].
    intros [= <-]; eexists; split; reflexivity.
  - destruct (assoc a attrs); [discriminate|].
    intros [= <-]; eexists; split; reflexivity.
Qed.

Lemma iterate_raises (v : pyval) (x : raised) :
  iterate v = Raises x ->
  exists e : exn, x = Printable e /\ exn_cls e = exception_class "TypeError".
Proof.
  destruct v; simpl; try discriminate;
    intros [= <-]; eexists; split; reflexivity.
Qed.

Lemma extract_fields_returns (language r : pyval) :
  extract_fields language = Returns r ->
  exists code name sentence_types items names,
    getattr language "code" = Returns code
    /\ getattr language "name" = Returns name
    /\ getattr language "sentence_types" = Returns sentence_types
    /\ iterate sentence_types = Returns items
    /\ map (fun st => getattr st "__name__") items = map Returns names
    /\ r = success_record code name names.
Proof.
  unfold extract_fields.
  destruct (getattr language "code") as [code|] eqn:H1; [|discriminate].
  destruct (getattr language "name") as [name|] eqn:H2; [|discriminate].
  destruct (getattr language "sentence_types") as [sts|] eqn:H3; [|discriminate].
  simpl. destruct (iterate sts) as [items|] eqn:H4; [|discriminate].
  simpl. destruct (collect _) as [names|] eqn:Hc; [|discriminate].
  simpl. intros [= <-]. apply collect_returns in Hc.
  exists code, name, sts, items, names. repeat split; assumption.
Qed.

Lemma extract_fields_raises (language : pyval) (x : raised) :
  extract_fields language = Raises x ->
  exists e : exn,
    x = Printable e
    /\ (exn_cls e = exception_class "AttributeError"
        \/ exn_cls e = exception_class "TypeError").
Proof.
  unfold extract_fields.
  destruct (getattr language "code") as [code|y] eqn:H1;
    [|intros [= <-]; destruct (getattr_raises _ _ _ H1) as (e & -> & He); eauto].
  destruct (getattr language "name") as [name|y] eqn:H2;
    [|intros [= <-]; destruct (getattr_raises _ _ _ H2) as (e & -> & He); eauto].
  destruct (getattr language "sentence_types") as [sts|y] eqn:H3;
    [|intros [= <-]; destruct (getattr_raises _ _ _ H3) as (e & -> & He); eauto].
  simpl. destruct (iterate sts) as [items|y] eqn:H4;
    [|intros [= <-]; destruct (iterate_raises _ _ H4) as (e & -> & He); eauto].
  simpl.
  destruct (collect_outcome (map (fun st => getattr st "__name__") items))
    as [(names & ->) | (y & -> & Hin)]; [discriminate|].
  simpl. intros [= <-].
  apply in_map_iff in Hin. destruct Hin as (st & Hst & _).
  destruct (getattr_raises _ _ _ Hst) as (e & -> & He). eauto.
Qed.

Lemma exception_class_caught (e : exn) (name : string) :
  exn_cls e = exception_class name -> isinstance e "Exception" = true.
Proof.
  intros H. unfold isinstance. rewrite H. simpl. apply orb_true_r.
Qed.

(** A failure to read the fields is one the [except] clause turns into a
    record. *)
Lemma extract_fields_reportable (language : pyval) (x : raised) :
  extract_fields language = Raises x -> reportable x.
Proof.
  intros H. destruct (extract_fields_raises _ _ H) as (e & -> & [He | He]);
    exists e; split; try reflexivity; eapply exception_class_caught; eauto.
Qed.

(** An item without a type name makes the extraction raise
    [AttributeError], whatever the other fields are. *)
Lemma extract_fields_missing_name
    (language sentence_types : pyval) (items : list pyval) (st : pyval) :
  getattr language "sentence_types" = Returns sentence_types ->
  iterate sentence_types = Returns items ->
  In st items ->
  (forall x, getattr st "__name__" <> Returns x) ->
  exists e : exn, extract_fields language = Raises e
                  /\ exn_cls e = exception_class "AttributeError".
Proof.
  intros Hsts Hiter Hin Hst. unfold extract_fields.
  destruct (getattr language "code") as [code|y] eqn:H1;
    [|destruct (getattr_raises _ _ _ H1) as (e & -> & He);
      exists e; split; [reflexivity | exact He]].
  destruct (getattr language "name") as [name|y] eqn:H2;
    [|destruct (getattr_raises _ _ _ H2) as (e & -> & He);
      exists e; split; [reflexivity | exact He]].
  rewrite Hsts. simpl. rewrite Hiter. simpl.
  destruct (collect_raises (map (fun st => getattr st "__name__") items))
    as (y & -> & Hy).
  - destruct (getattr st "__name__") as [z|y] eqn:Hz; [now destruct (Hst z)|].
    exists y. rewrite <- Hz.
    exact (in_map (fun st0 => getattr st0 "__name__") items st Hin).
  - apply in_map_iff in Hy. destruct Hy as (st' & Hst' & _).
    destruct (getattr_raises _ _ _ Hst') as (e & -> & He).
    exists e. split; [reflexivity | exact He].
Qed.

Section Returned.

Context {E : Type}.
Variable yaduha : loader (E := E).

Lemma guarded_returns (repo_path : string) (w0 w' : world E) (r : pyval) :
  guarded yaduha repo_path w0 = (Returns r, w') ->
  exists code name names, r = success_record code name names.
Proof.
  rewrite guarded_eq.
  destruct (import_LanguageLoader yaduha w0) as [[[]|e] w1]; [|discriminate].
  destruct (load_language_from_source yaduha repo_path w1) as [[language|e] w2];
    [|discriminate].
  intros [= Hx <-]. apply extract_fields_returns in Hx.
  destruct Hx as (code & name & _ & _ & names & _ & _ & _ & _ & _ & ->).
  eauto.
Qed.

(** Every run that returns has written one of the two records. *)
Lemma validate_language_returns
    (repo_path : string) (w w' : world E) (out : string) :
  validate_language yaduha repo_path w = (Returns out, w') ->
  (exists e : exn,
      guarded yaduha repo_path (entry repo_path w) = (Raises e, w')
      /\ isinstance e "Exception" = true
      /\ out = encode (failure_json (exn_str e) (cls_name (exn_cls e))))
  \/ (exists code name names jc jn jts,
         guarded yaduha repo_path (entry repo_path w)
         = (Returns (success_record code name names), w')
         /\ to_json code = Returns jc /\ to_json name = Returns jn
         /\ map to_json names = map Returns jts
         /\ out = encode (success_json jc jn jts)).
Proof.
  rewrite validate_language_eq.
  destruct (guarded yaduha repo_path (entry repo_path w)) as [[r|x] w0] eqn:Hg.
  - intros [= Hd <-]. right.
    destruct (guarded_returns _ _ _ _ Hg) as (code & name & names & ->).
    apply json_dumps_returns in Hd. destruct Hd as (j & Hj & -> & _).
    apply to_json_success in Hj.
    destruct Hj as (jc & jn & jts & Hc & Hn & Hts & ->).
    exists code, name, names, jc, jn, jts. auto 10.
  - destruct (raised_isinstance x "Exception") eqn:He; [|discriminate].
    destruct x as [e|cls inner]; [|discriminate].
    rewrite json_dumps_failure. intros [= <- <-]. left. eauto.
Qed.

End Returned.

End ScriptFacts.
Import ScriptFacts.

(** ** Properties of [validate_language] *)

Section Properties.

Context {E : Type}.
Variable yaduha : loader (E := E).

(** C1, as the code has it.  For every [repo_path], if every failure of the
    guarded region is an instance of [Exception] whose [str] returns, and
    [json.dumps] accepts the record the region builds, the function returns
    a string and does not raise: JSON text for the Failure record when the
    guarded region failed, and otherwise what [json.dumps] writes for the
    Success record, which is JSON text when no field holds a float that is
    not a number. *)
Theorem returns_json_text (repo_path : string) (w : world E) :
  (forall x w', guarded yaduha repo_path (entry repo_path w) = (Raises x, w') ->
                reportable x) ->
  (forall r w', guarded yaduha repo_path (entry repo_path w) = (Returns r, w') ->
                exists s, json_dumps r = Returns s) ->
  exists out w',
    validate_language yaduha repo_path w = (Returns out, w')
    /\ ((exists e : exn,
            guarded yaduha repo_path (entry repo_path w) = (Raises e, w')
            /\ json_loads out
               = Some (failure_json (exn_str e) (cls_name (exn_cls e))))
        \/ (exists r j,
               guarded yaduha repo_path (entry repo_path w) = (Returns r, w')
               /\ to_json r = Returns j
               /\ out = encode j
               /\ (standard j = true -> json_loads out = Some j))).
Proof.
  intros Hexc Hdumps.
  destruct (guarded yaduha repo_path (entry repo_path w)) as [[r|x] w'] eqn:Hg.
  - destruct (Hdumps r w' eq_refl) as (out & Hout).
    destruct (json_dumps_returns _ _ Hout) as (j & Hj & -> & Hloads).
    exists (encode j), w'. rewrite validate_language_eq, Hg, Hout.
    split; [reflexivity|]. right. exists r, j.
    repeat split; try assumption.
    intros Hstd. now rewrite Hloads, Hstd.
  - destruct (Hexc x w' eq_refl) as (e & -> & He).
    exists (encode (failure_json (exn_str e) (cls_name (exn_cls e)))), w'.
    split; [apply validate_language_caught; assumption|].
    left. exists e. split; [reflexivity | apply json_loads_failure].
Qed.

(** C2.  When the import succeeds and the loader returns a language object
    whose [code] and [name] are strings and whose [sentence_types] is an
    iterable of objects with a type name, the function returns JSON text
    denoting [valid == true], [language] the code, [name] the display name
    and [sentence_types] the array of the type names, as many as the loader
    reported and in the same order. *)
Theorem successful_load_output
    (repo_path : string) (w w1 w2 : world E)
    (language sentence_types : pyval) (code name : string)
    (items : list pyval) (types : list string) :
  import_LanguageLoader yaduha (entry repo_path w) = (Returns tt, w1) ->
  load_language_from_source yaduha repo_path w1 = (Returns language, w2) ->
  getattr language "code" = Returns (PyStr code) ->
  getattr language "name" = Returns (PyStr name) ->
  getattr language "sentence_types" = Returns sentence_types ->
  iterate sentence_types = Returns items ->
  Forall2 (fun st t => getattr st "__name__" = Returns (PyStr t)) items types ->
  exists out,
    validate_language yaduha repo_path w = (Returns out, w2)
    /\ json_loads out
       = Some (success_json (JStr code) (JStr name) (map JStr types))
    /\ length types = length items.
Proof.
  intros Himp Hload Hcode Hname Hsts Hiter Hnames.
  assert (Hmap : map (fun st => getattr st "__name__") items
                 = map Returns (map PyStr types)).
  { clear Hiter.
    induction Hnames as [|st t items' types' Hst _ IH]; cbn [map];
      [reflexivity | now rewrite Hst, IH]. }
  assert (Hg : guarded yaduha repo_path (entry repo_path w)
               = (Returns (success_record (PyStr code) (PyStr name)
                             (map PyStr types)), w2)).
  { rewrite guarded_eq, Himp, Hload. unfold extract_fields.
    rewrite Hcode, Hname, Hsts. simpl. rewrite Hiter. simpl.
    rewrite Hmap. rewrite (proj2 (collect_returns _ _) eq_refl). reflexivity. }
  assert (Hj : to_json (success_record (PyStr code) (PyStr name) (map PyStr types))
               = Returns (success_json (JStr code) (JStr name) (map JStr types))).
  { unfold success_record. simpl.
    replace (map to_json (map PyStr types)) with (map Returns (map JStr types))
      by (rewrite !map_map; reflexivity).
    rewrite (proj2 (collect_returns _ _) eq_refl). reflexivity. }
  exists (encode (success_json (JStr code) (JStr name) (map JStr types))).
  split; [|split].
  - rewrite (validate_language_dumps _ _ _ _ _ Hg). unfold json_dumps.
    now rewrite Hj.
  - apply json_loads_encode. rewrite success_json_standard.
    apply strings_standard.
  - symmetry. eapply Forall2_length; eauto.
Qed.


(** C4, as the code has it.  Whenever the function returns, either the
    guarded region failed and the output is JSON text conforming to the
    Failure schema, or it completed and the output is what [json.dumps]
    writes for the Success record: if that is JSON text at all, it is an
    object with exactly the keys [valid], [language], [name] and
    [sentence_types], [valid] true and [sentence_types] an array; and it
    conforms to the Success schema exactly when the loaded code, name and
    type names are strings. *)
Theorem output_schema (repo_path : string) (w w' : world E) (out : string) :
  validate_language yaduha repo_path w = (Returns out, w') ->
  (exists (e : exn) j,
      guarded yaduha repo_path (entry repo_path w) = (Raises e, w')
      /\ json_loads out = Some j
      /\ failure_schema j = true)
  \/ (exists code name names,
         guarded yaduha repo_path (entry repo_path w)
         = (Returns (success_record code name names), w')
         /\ json_dumps (success_record code name names) = Returns out
         /\ (forall j, json_loads out = Some j ->
                       keys_exactly success_keys j = true
                       /\ field "valid" (is_bool true) j = true
                       /\ field "sentence_types" is_array j = true)
         /\ ((exists j, json_loads out = Some j /\ success_schema j = true)
             <-> is_str code && is_str name && forallb is_str names = true)).
Proof.
  intros H. apply validate_language_returns in H.
  destruct H as [(e & Hg & He & ->)
                | (code & name & names & jc & jn & jts & Hg & Hc & Hn & Hts & ->)].
  - left. exists e. eexists. split; [exact Hg|].
    split; [apply json_loads_failure | reflexivity].
  - right. exists code, name, names.
    assert (Hschema : success_schema (success_json jc jn jts)
                      = is_str code && is_str name && forallb is_str names).
    { unfold success_schema. simpl.
      now rewrite (to_json_is_string _ _ Hc), (to_json_is_string _ _ Hn),
        (to_json_forallb _ _ to_json_is_string _ _ Hts). }
    split; [exact Hg|]. split; [now apply json_dumps_success|].
    split; [|split].
    + intros j Hj. apply json_loads_encode_inv in Hj. destruct Hj as (-> & _).
      repeat split.
    + intros (j & Hj & Hs). apply json_loads_encode_inv in Hj.
      destruct Hj as (-> & _). now rewrite <- Hschema.
    + intros Hstr. exists (success_json jc jn jts). rewrite Hschema.
      split; [|exact Hstr]. apply json_loads_encode.
      rewrite success_json_standard.
      apply andb_true_iff in Hstr. destruct Hstr as (Hstr & Hnames).
      apply andb_true_iff in Hstr. destruct Hstr as (Hcode & Hname).
      rewrite <- (to_json_is_string _ _ Hc) in Hcode.
      rewrite <- (to_json_is_string _ _ Hn) in Hname.
      rewrite <- (to_json_forallb _ _ to_json_is_string _ _ Hts) in Hnames.
      rewrite (is_string_standard _ Hcode), (is_string_standard _ Hname).
      apply (forallb_impl is_string standard); auto using is_string_standard.
Qed.

(** C5, as the code has it.  Whenever the function returns, exactly one of
    the two records was built and [valid] tells which: either the guarded
    region failed and the output is parseable, flat JSON with the keys of
    the Failure variant and [valid] false, or it completed and the output
    is what [json.dumps] writes for the Success record: if that is JSON
    text at all, it has the keys of the Success variant and [valid] true;
    it is parseable and flat when the loaded code, name and type names are
    [None], booleans, integers or strings, and not flat when one of them is
    a list, a tuple or a dictionary. *)
Theorem output_variant (repo_path : string) (w w' : world E) (out : string) :
  validate_language yaduha repo_path w = (Returns out, w') ->
  (exists (e : exn) j,
      guarded yaduha repo_path (entry repo_path w) = (Raises e, w')
      /\ json_loads out = Some j
      /\ keys_exactly failure_keys j = true
      /\ keys_exactly success_keys j = false
      /\ field "valid" (is_bool false) j = true
      /\ flat j = true)
  \/ (exists code name names,
         guarded yaduha repo_path (entry repo_path w)
         = (Returns (success_record code name names), w')
         /\ json_dumps (success_record code name names) = Returns out
         /\ (forall j, json_loads out = Some j ->
                       keys_exactly success_keys j = true
                       /\ keys_exactly failure_keys j = false
                       /\ field "valid" (is_bool true) j = true)
         /\ (py_scalar code && py_scalar name && forallb py_scalar names = true ->
             exists j, json_loads out = Some j /\ flat j = true)
         /\ (py_container code || py_container name
             || existsb py_container names = true ->
             forall j, json_loads out = Some j -> flat j = false)).
Proof.
  intros H. apply validate_language_returns in H.
  destruct H as [(e & Hg & He & ->)
                | (code & name & names & jc & jn & jts & Hg & Hc & Hn & Hts & ->)].
  - left. exists e. eexists. split; [exact Hg|].
    split; [apply json_loads_failure | repeat split].
  - right. exists code, name, names.
    assert (Hflat : flat (success_json jc jn jts)
                    = is_scalar jc && is_scalar jn && forallb is_scalar jts).
    { simpl. now rewrite andb_true_r, andb_assoc. }
    split; [exact Hg|]. split; [now apply json_dumps_success|].
    split; [|split].
    + intros j Hj. apply json_loads_encode_inv in Hj. destruct Hj as (-> & _).
      repeat split.
    + intros Hsc.
      apply andb_true_iff in Hsc. destruct Hsc as (Hsc & Hnames).
      apply andb_true_iff in Hsc. destruct Hsc as (Hcode & Hname).
      destruct (to_json_scalar _ _ Hc Hcode) as (Hc1 & Hc2).
      destruct (to_json_scalar _ _ Hn Hname) as (Hn1 & Hn2).
      exists (success_json jc jn jts). split.
      * apply json_loads_encode.
        rewrite success_json_standard, Hc2, Hn2.
        apply (to_json_forallb_true standard py_scalar) with (vs := names);
          [|assumption..].
        intros v j Hv Hp. now destruct (to_json_scalar _ _ Hv Hp).
      * rewrite Hflat, Hc1, Hn1.
        apply (to_json_forallb_true is_scalar py_scalar) with (vs := names);
          [|assumption..].
        intros v j Hv Hp. now destruct (to_json_scalar _ _ Hv Hp).
    + intros Hcont j Hj. apply json_loads_encode_inv in Hj.
      destruct Hj as (-> & _). rewrite Hflat.
      apply orb_true_iff in Hcont. destruct Hcont as [Hcont | Hnames].
      * apply orb_true_iff in Hcont. destruct Hcont as [Hcode | Hname].
        -- now rewrite (to_json_container _ _ Hc Hcode).
        -- rewrite (to_json_container _ _ Hn Hname). now rewrite andb_false_r.
      * rewrite (to_json_existsb_container _ _ Hts Hnames).
        now rewrite andb_false_r.
Qed.

(** C6.  Every invocation, whether it returns a Success record, returns a
    Failure record or raises, starts the guarded region with [repo_path] put
    in front of [sys.path] and writes [sys.path] nowhere else.  So, provided
    the external collaborators leave [sys.path] alone, it ends with
    [repo_path] in front and the rest as it was, and a series of invocations
    leaves every path of the series on it, the latest first. *)
Theorem search_path_accumulates :
  (forall repo_path w,
      snd (validate_language yaduha repo_path w)
      = snd (guarded yaduha repo_path
               (mkWorld (repo_path :: sys_path w) (external w))))
  /\ (preserves_sys_path (import_LanguageLoader yaduha) ->
      (forall p, preserves_sys_path (load_language_from_source yaduha p)) ->
      (forall repo_path w,
          sys_path (snd (validate_language yaduha repo_path w))
          = repo_path :: sys_path w)
      /\ (forall paths w,
             sys_path (invocations yaduha paths w)
             = (rev paths ++ sys_path w)%list)).
Proof.
  split; [exact (validate_language_state yaduha)|].
  intros Himp Hload.
  assert (Hone : forall repo_path w,
             sys_path (snd (validate_language yaduha repo_path w))
             = repo_path :: sys_path w).
  { intros repo_path w. rewrite validate_language_state.
    now rewrite (guarded_preserves_sys_path yaduha repo_path Himp Hload). }
  split; [exact Hone|].
  induction paths as [|p paths IH]; intros w; simpl.
  - reflexivity.
  - rewrite IH, Hone, <- app_assoc. reflexivity.
Qed.


(** C8.  The import statement is inside the guarded region: when it raises
    an error that is an [Exception], as every [ImportError] is, the loader
    is not called and the function returns the Failure record with the
    error's message and the name of its class. *)
Theorem import_failure_reported
    (repo_path : string) (w w1 : world E) (e : exn) :
  import_LanguageLoader yaduha (entry repo_path w) = (Raises e, w1) ->
  isinstance e "Exception" = true ->
  exists out,
    validate_language yaduha repo_path w = (Returns out, w1)
    /\ json_loads out
       = Some (failure_json (exn_str e) (cls_name (exn_cls e))).
Proof.
  intros Himp He.
  assert (Hg : guarded yaduha repo_path (entry repo_path w) = (Raises e, w1))
    by now rewrite guarded_eq, Himp.
  eexists. split; [apply (validate_language_caught _ _ _ _ _ Hg He)|].
  apply json_loads_failure.
Qed.

(** C9.  If some element of the loader's [sentence_types] collection has no
    type name, the field extraction fails inside the guarded region and the
    function returns the Failure record with [error_type] [AttributeError]
    instead of raising. *)
Theorem missing_type_name_reported
    (repo_path : string) (w w1 w2 : world E)
    (language sentence_types : pyval) (items : list pyval) (st : pyval) :
  import_LanguageLoader yaduha (entry repo_path w) = (Returns tt, w1) ->
  load_language_from_source yaduha repo_path w1 = (Returns language, w2) ->
  getattr language "sentence_types" = Returns sentence_types ->
  iterate sentence_types = Returns items ->
  In st items ->
  (forall x, getattr st "__name__" <> Returns x) ->
  exists out error,
    validate_language yaduha repo_path w = (Returns out, w2)
    /\ json_loads out = Some (failure_json error "AttributeError").
Proof.
  intros Himp Hload Hsts Hiter Hin Hst.
  destruct (extract_fields_missing_name _ _ _ _ Hsts Hiter Hin Hst)
    as (e & Hx & Hcls).
  assert (Hg : guarded yaduha repo_path (entry repo_path w) = (Raises e, w2))
    by now rewrite guarded_eq, Himp, Hload, Hx.
  assert (He : isinstance e "Exception" = true)
    by (eapply exception_class_caught; eauto).
  exists (encode (failure_json (exn_str e) (cls_name (exn_cls e)))), (exn_str e).
  split; [apply (validate_language_caught _ _ _ _ _ Hg He)|].
  rewrite json_loads_failure, Hcls. reflexivity.
Qed.


End Properties.

(** ** Concrete runs *)

(** The specification's scenario for a well-formed package, character by
    character. *)
Example numeric_language_text :
  let q s := String dquote (s ++ String dquote "") in
  validate_language (loader_returning numeric_language) "/repo" fresh_process
  = (Returns ("{" ++ q "valid" ++ ": true, "
                  ++ q "language" ++ ": " ++ q "num" ++ ", "
                  ++ q "name" ++ ": " ++ q "Numeric Language" ++ ", "
                  ++ q "sentence_types" ++ ": ["
                  ++ q "Declarative" ++ ", " ++ q "Question" ++ "]}"),
     mkWorld ["/repo"; "/lib/python311.zip"] 1).
Proof. reflexivity. Qed.

(** The scenario for a package directory that does not exist. *)
Example missing_directory_text :
  let q s := String dquote (s ++ String dquote "") in
  validate_language
    (loader_raising (FileNotFoundError "No such directory: /missing"))
    "/missing" fresh_process
  = (Returns ("{" ++ q "valid" ++ ": false, "
                  ++ q "error" ++ ": " ++ q "No such directory: /missing" ++ ", "
                  ++ q "error_type" ++ ": " ++ q "FileNotFoundError" ++ "}"),
     mkWorld ["/missing"; "/lib/python311.zip"] 1).
Proof. reflexivity. Qed.

(** C2 at the well-formed package. *)
Lemma successful_load_output_witness :
  exists out,
    validate_language (loader_returning numeric_language) "/repo" fresh_process
    = (Returns out, mkWorld ["/repo"; "/lib/python311.zip"] 1)
    /\ json_loads out
       = Some (success_json (JStr "num") (JStr "Numeric Language")
                 (map JStr ["Declarative"; "Question"]))
    /\ length ["Declarative"; "Question"]
       = length [PyClass "Declarative" []; PyClass "Question" []].
Proof.
  apply (successful_load_output (loader_returning numeric_language)
           "/repo" fresh_process (entry "/repo" fresh_process)
           (mkWorld ["/repo"; "/lib/python311.zip"] 1) numeric_language
           (PyTuple [PyClass "Declarative" []; PyClass "Question" []])
           "num" "Numeric Language"
           [PyClass "Declarative" []; PyClass "Question" []]
           ["Declarative"; "Question"]);
    try reflexivity.
  repeat constructor.
Defined.

(** C1 fails: a loader interrupted from the keyboard makes the function
    raise. *)
Lemma keyboard_interrupt_escapes :
  validate_language (loader_raising KeyboardInterrupt) "/repo" fresh_process
  = (Raises KeyboardInterrupt, mkWorld ["/repo"; "/lib/python311.zip"] 1)
  /\ ~ (exists out w',
           validate_language (loader_raising KeyboardInterrupt) "/repo"
             fresh_process
           = (Returns out, w')).
Proof.
  split; [reflexivity|]. intros (out & w' & H). discriminate H.
Qed.

(** C1, as the code has it, at a package directory that does not exist. *)
Lemma returns_json_text_witness :
  exists out w',
    validate_language
      (loader_raising (FileNotFoundError "No such directory: /missing"))
      "/missing" fresh_process
    = (Returns out, w')
    /\ ((exists e : exn,
            guarded
              (loader_raising (FileNotFoundError "No such directory: /missing"))
              "/missing" (entry "/missing" fresh_process)
            = (Raises e, w')
            /\ json_loads out
               = Some (failure_json (exn_str e) (cls_name (exn_cls e))))
        \/ (exists r j,
               guarded
                 (loader_raising
                    (FileNotFoundError "No such directory: /missing"))
                 "/missing" (entry "/missing" fresh_process)
               = (Returns r, w')
               /\ to_json r = Returns j
               /\ out = encode j
               /\ (standard j = true -> json_loads out = Some j))).
Proof.
  apply (returns_json_text
           (loader_raising (FileNotFoundError "No such directory: /missing"))
           "/missing" fresh_process).
  - intros x w' H. injection H as <- _.
    exists (FileNotFoundError "No such directory: /missing").
    split; reflexivity.
  - intros r w' H. discriminate H.
Defined.



(** C4 fails: a package whose code is [None] is written with
    [language] null, which neither schema allows. *)
Lemma null_language_off_schema :
  exists out j,
    validate_language (loader_returning codeless_language) "/repo" fresh_process
    = (Returns out, mkWorld ["/repo"; "/lib/python311.zip"] 1)
    /\ json_loads out = Some j
    /\ field "language" (fun v => match v with JNull => true | _ => false end) j
       = true
    /\ success_schema j = false
    /\ failure_schema j = false.
Proof.
  eexists _, _. split; [reflexivity|]. split; [reflexivity|].
  repeat split.
Qed.

(** C4, as the code has it, at the well-formed package. *)
Lemma output_schema_witness :
  (exists (e : exn) j,
      guarded (loader_returning numeric_language) "/repo"
        (entry "/repo" fresh_process)
      = (Raises e, mkWorld ["/repo"; "/lib/python311.zip"] 1)
      /\ json_loads (encode (success_json (JStr "num") (JStr "Numeric Language")
                               (map JStr ["Declarative"; "Question"])))
         = Some j
      /\ failure_schema j = true)
  \/ (exists code name names,
         guarded (loader_returning numeric_language) "/repo"
           (entry "/repo" fresh_process)
         = (Returns (success_record code name names),
            mkWorld ["/repo"; "/lib/python311.zip"] 1)
         /\ json_dumps (success_record code name names)
            = Returns (encode (success_json (JStr "num")
                                 (JStr "Numeric Language")
                                 (map JStr ["Declarative"; "Question"])))
         /\ (forall j,
                json_loads (encode (success_json (JStr "num")
                                      (JStr "Numeric Language")
                                      (map JStr ["Declarative"; "Question"])))
                = Some j ->
                keys_exactly success_keys j = true
                /\ field "valid" (is_bool true) j = true
                /\ field "sentence_types" is_array j = true)
         /\ ((exists j,
                 json_loads (encode (success_json (JStr "num")
                                       (JStr "Numeric Language")
                                       (map JStr ["Declarative"; "Question"])))
                 = Some j
                 /\ success_schema j = true)
             <-> is_str code && is_str name && forallb is_str names = true)).
Proof.
  apply (output_schema (loader_returning numeric_language) "/repo" fresh_process
           (mkWorld ["/repo"; "/lib/python311.zip"] 1)).
  reflexivity.
Defined.

(** C5 fails: a package whose name is a dictionary per locale is written
    with an object nested under [name]. *)
Lemma nested_name_not_flat :
  exists out j,
    validate_language (loader_returning localized_language) "/repo" fresh_process
    = (Returns out, mkWorld ["/repo"; "/lib/python311.zip"] 1)
    /\ json_loads out = Some j
    /\ field "name" (fun v => match v with JObj _ => true | _ => false end) j
       = true
    /\ flat j = false.
Proof.
  eexists _, _. split; [reflexivity|]. split; [reflexivity|].
  split; reflexivity.
Qed.

(** C5, as the code has it, at a package directory that does not exist. *)
Lemma output_variant_witness :
  (exists (e : exn) j,
      guarded (loader_raising (FileNotFoundError "No such directory: /missing"))
        "/missing" (entry "/missing" fresh_process)
      = (Raises e, mkWorld ["/missing"; "/lib/python311.zip"] 1)
      /\ json_loads (encode (failure_json "No such directory: /missing"
                               "FileNotFoundError"))
         = Some j
      /\ keys_exactly failure_keys j = true
      /\ keys_exactly success_keys j = false
      /\ field "valid" (is_bool false) j = true
      /\ flat j = true)
  \/ (exists code name names,
         guarded
           (loader_raising (FileNotFoundError "No such directory: /missing"))
           "/missing" (entry "/missing" fresh_process)
         = (Returns (success_record code name names),
            mkWorld ["/missing"; "/lib/python311.zip"] 1)
         /\ json_dumps (success_record code name names)
            = Returns (encode (failure_json "No such directory: /missing"
                                 "FileNotFoundError"))
         /\ (forall j,
                json_loads (encode (failure_json "No such directory: /missing"
                                      "FileNotFoundError"))
                = Some j ->
                keys_exactly success_keys j = true
                /\ keys_exactly failure_keys j = false
                /\ field "valid" (is_bool true) j = true)
         /\ (py_scalar code && py_scalar name && forallb py_scalar names = true ->
             exists j,
               json_loads (encode (failure_json "No such directory: /missing"
                                     "FileNotFoundError"))
               = Some j
               /\ flat j = true)
         /\ (py_container code || py_container name
             || existsb py_container names = true ->
             forall j,
               json_loads (encode (failure_json "No such directory: /missing"
                                     "FileNotFoundError"))
               = Some j ->
               flat j = false)).
Proof.
  apply (output_variant
           (loader_raising (FileNotFoundError "No such directory: /missing"))
           "/missing" fresh_process
           (mkWorld ["/missing"; "/lib/python311.zip"] 1)).
  reflexivity.
Defined.

(** C6 at a loader that counts the packages it reads: three requests, two
    of them for the same package. *)
Lemma search_path_accumulates_witness :
  (forall repo_path w,
      sys_path (snd (validate_language (loader_returning numeric_language)
                       repo_path w))
      = repo_path :: sys_path w)
  /\ (forall paths w,
         sys_path (invocations (loader_returning numeric_language) paths w)
         = (rev paths ++ sys_path w)%list).
Proof.
  apply (proj2 (search_path_accumulates (loader_returning numeric_language))).
  - intros w. reflexivity.
  - intros p w. reflexivity.
Defined.

Example three_requests :
  invocations (loader_returning numeric_language) ["/a"; "/b"; "/a"] fresh_process
  = mkWorld ["/a"; "/b"; "/a"; "/lib/python311.zip"] 3.
Proof. reflexivity. Qed.



(** C8 with no [yaduha] package on the search path. *)
Lemma import_failure_reported_witness :
  exists out,
    validate_language missing_loader "/repo" fresh_process
    = (Returns out, mkWorld ["/repo"; "/lib/python311.zip"] 0)
    /\ json_loads out
       = Some (failure_json "No module named 'yaduha'" "ModuleNotFoundError").
Proof.
  apply (import_failure_reported missing_loader "/repo" fresh_process
           (mkWorld ["/repo"; "/lib/python311.zip"] 0)
           (ModuleNotFoundError "No module named 'yaduha'"));
    reflexivity.
Defined.

(** C9 at the package that lists a sentence type by name. *)
Lemma missing_type_name_reported_witness :
  exists out error,
    validate_language (loader_returning misdeclared_language) "/repo"
      fresh_process
    = (Returns out, mkWorld ["/repo"; "/lib/python311.zip"] 1)
    /\ json_loads out = Some (failure_json error "AttributeError").
Proof.
  apply (missing_type_name_reported (loader_returning misdeclared_language)
           "/repo" fresh_process (entry "/repo" fresh_process)
           (mkWorld ["/repo"; "/lib/python311.zip"] 1) misdeclared_language
           (PyTuple [PyClass "Declarative" []; PyStr "Question"])
           [PyClass "Declarative" []; PyStr "Question"]
           (PyStr "Question")); try reflexivity.
  - right. left. reflexivity.
  - intros x H. discriminate H.
Defined.


(** * Further properties *)

(** ** More on the encoder *)

Module EncoderFacts.

(** The encoder writes printable ASCII only. *)
Lemma all_printable_app (a b : string) :
  all_printable (a ++ b) = all_printable a && all_printable b.
Proof.
  induction a as [|c a IH]; simpl; [reflexivity|].
  now rewrite IH, andb_assoc.
Qed.

Lemma escape_char_printable (c : ascii) : all_printable (escape_char c) = true.
Proof. destruct c as [[] [] [] [] [] [] [] []]; reflexivity. Qed.

Lemma escape_printable (s : string) : all_printable (escape s) = true.
Proof.
  induction s as [|c s IH]; simpl; [reflexivity|].
  now rewrite all_printable_app, escape_char_printable, IH.
Qed.

Lemma basestring_printable (s : string) :
  all_printable (encode_basestring_ascii s) = true.
Proof.
  unfold encode_basestring_ascii. simpl.
  now rewrite all_printable_app, escape_printable.
Qed.

Lemma uint_printable (d : Decimal.uint) :
  all_printable (NilEmpty.string_of_uint d) = true.
Proof. induction d; simpl; auto. Qed.

Lemma repr_int_printable (z : Z) : all_printable (repr_int z) = true.
Proof.
  destruct (repr_int_shape z) as (neg & d & _ & _ & -> & _).
  rewrite all_printable_app, uint_printable. now destruct neg.
Qed.

Lemma concat_printable (l : list string) :
  Forall (fun s => all_printable s = true) l ->
  all_printable (String.concat ", " l) = true.
Proof.
  induction 1 as [|x l Hx Hl IH]; [reflexivity|].
  destruct l as [|y l']; [exact Hx|].
  rewrite concat_cons2, !all_printable_app, Hx, IH. reflexivity.
Qed.

Lemma encode_printable (j : json) : all_printable (encode j) = true.
Proof.
  induction j as [| b | z | x | s | items IH | members IH] using json_nested_ind.
  - reflexivity.
  - now destruct b.
  - apply repr_int_printable.
  - now destruct x as [|[]].
  - apply basestring_printable.
  - simpl encode. simpl append. cbn [all_printable].
    rewrite all_printable_app, concat_printable; [reflexivity|].
    apply Forall_map. exact IH.
  - rewrite encode_obj_text. simpl append. cbn [all_printable].
    rewrite all_printable_app, concat_printable; [reflexivity|].
    apply Forall_map. eapply Forall_impl; [|exact IH].
    intros kv Hkv. unfold member_text.
    now rewrite !all_printable_app, basestring_printable, Hkv.
Qed.

End EncoderFacts.
Import EncoderFacts.

(** ** More on [validate_language] *)

Section Further.

Context {E : Type}.
Variable yaduha : loader (E := E).

(** [json.dumps] is called after the [try] statement: when the guarded
    region completes and [json.dumps] raises, what it raised leaves the
    function, an instance of [Exception] or not; no Failure record is
    written for it. *)
Theorem serializer_refusal_escapes
    (repo_path : string) (w w' : world E) (r : pyval) (x : raised) :
  guarded yaduha repo_path (entry repo_path w) = (Returns r, w') ->
  json_dumps r = Raises x ->
  validate_language yaduha repo_path w = (Raises x, w')
  /\ forall out w'', validate_language yaduha repo_path w <> (Returns out, w'').
Proof.
  intros Hg Hd.
  assert (H : validate_language yaduha repo_path w = (Raises x, w'))
    by now rewrite (validate_language_dumps _ _ _ _ _ Hg), Hd.
  split; [exact H|]. intros out w''. rewrite H. discriminate.
Qed.

(** What leaves the function, exactly: a failure of the guarded region that
    is not an instance of [Exception]; what [str] raised for a failure the
    [except] clause took; what [json.dumps] raised for the record of a
    completed guarded region.  A failure of the guarded region that is an
    instance of [Exception] and whose [str] returns never leaves it. *)
Theorem escaping_failures
    (repo_path : string) (w w' : world E) (x : raised) :
  validate_language yaduha repo_path w = (Raises x, w')
  <-> (guarded yaduha repo_path (entry repo_path w) = (Raises x, w')
       /\ raised_isinstance x "Exception" = false)
      \/ (exists cls,
             guarded yaduha repo_path (entry repo_path w)
             = (Raises (Unprintable cls x), w')
             /\ raised_isinstance (Unprintable cls x) "Exception" = true)
      \/ (exists r,
             guarded yaduha repo_path (entry repo_path w) = (Returns r, w')
             /\ json_dumps r = Raises x).
Proof.
  rewrite validate_language_eq. split.
  - destruct (guarded yaduha repo_path (entry repo_path w)) as [[r|y] w0] eqn:Hg.
    + intros [= Hd <-]. right. right. exists r. auto.
    + destruct (raised_isinstance y "Exception") eqn:He.
      * destruct y as [e|cls inner]; [discriminate|].
        intros [= <- <-]. right. left. exists cls. auto.
      * intros [= <- <-]. left. auto.
  - intros [(-> & ->) | [(cls & -> & ->) | (r & -> & ->)]]; reflexivity.
Qed.

(** A [sentence_types] that is [None], a boolean or an integer cannot be
    iterated over: once [code] and [name] have been read, the function
    returns the Failure record for the [TypeError] that names its type. *)
Theorem non_iterable_sentence_types_reported
    (repo_path : string) (w w1 w2 : world E)
    (language code name sentence_types : pyval) :
  import_LanguageLoader yaduha (entry repo_path w) = (Returns tt, w1) ->
  load_language_from_source yaduha repo_path w1 = (Returns language, w2) ->
  getattr language "code" = Returns code ->
  getattr language "name" = Returns name ->
  getattr language "sentence_types" = Returns sentence_types ->
  py_scalar sentence_types = true ->
  is_str sentence_types = false ->
  exists out,
    validate_language yaduha repo_path w = (Returns out, w2)
    /\ json_loads out
       = Some (failure_json
                 ("'" ++ type_name sentence_types ++ "' object is not iterable")
                 "TypeError").
Proof.
  intros Himp Hload Hcode Hname Hsts Hscalar Hstr.
  set (e := TypeError ("'" ++ type_name sentence_types
                           ++ "' object is not iterable")).
  assert (Hi : iterate sentence_types = Raises e)
    by (destruct sentence_types; try discriminate; reflexivity).
  assert (Hg : guarded yaduha repo_path (entry repo_path w) = (Raises e, w2)).
  { rewrite guarded_eq, Himp, Hload. unfold extract_fields.
    rewrite Hcode, Hname, Hsts. simpl. now rewrite Hi. }
  eexists. split; [apply (validate_language_caught _ _ _ _ _ Hg eq_refl)|].
  apply json_loads_failure.
Qed.

(** The fields are read in the order [code], [name], [sentence_types]: for
    a loaded instance that lacks some of them, the Failure record is the
    [AttributeError] for the first one missing, whatever else is wrong with
    the object. *)
Theorem first_missing_field_reported
    (repo_path : string) (w w1 w2 : world E)
    (cls : string) (attrs : list (string * pyval)) (missing : string) :
  import_LanguageLoader yaduha (entry repo_path w) = (Returns tt, w1) ->
  load_language_from_source yaduha repo_path w1
  = (Returns (PyObj cls attrs), w2) ->
  first_missing attrs = Some missing ->
  exists out,
    validate_language yaduha repo_path w = (Returns out, w2)
    /\ json_loads out
       = Some (failure_json
                 ("'" ++ cls ++ "' object has no attribute '" ++ missing ++ "'")
                 "AttributeError").
Proof.
  intros Himp Hload Hmiss.
  set (e := AttributeError
              ("'" ++ cls ++ "' object has no attribute '" ++ missing ++ "'")).
  assert (Hx : extract_fields (PyObj cls attrs) = Raises e).
  { unfold first_missing in Hmiss. unfold extract_fields. simpl in *.
    destruct (assoc "code" attrs); [|now injection Hmiss as <-].
    destruct (assoc "name" attrs); [|now injection Hmiss as <-].
    destruct (assoc "sentence_types" attrs); [discriminate|].
    now injection Hmiss as <-. }
  assert (Hg : guarded yaduha repo_path (entry repo_path w) = (Raises e, w2))
    by now rewrite guarded_eq, Himp, Hload, Hx.
  eexists. split; [apply (validate_language_caught _ _ _ _ _ Hg eq_refl)|].
  apply json_loads_failure.
Qed.

(** The text the function returns is printable ASCII throughout: whatever
    characters the loaded strings or the failure's message hold, the output
    has no line break, no other control character and nothing beyond the
    tilde. *)
Theorem output_is_printable_ascii
    (repo_path : string) (w w' : world E) (out : string) :
  validate_language yaduha repo_path w = (Returns out, w') ->
  all_printable out = true.
Proof.
  intros H. apply validate_language_returns in H.
  destruct H as [(e & _ & _ & ->) | (c & n & ns & jc & jn & jts & _ & _ & _ & _ & ->)];
    apply encode_printable.
Qed.

(** The text of a Failure record is never the text of a Success record: a
    run, of any loader, that returns the same text as a run whose guarded
    region failed is itself a run whose guarded region failed, whatever the
    strings of a loaded package hold. *)
Theorem failure_text_not_forged
    (other : loader (E := E))
    (repo_path repo_path' : string) (w w1 w' w1' : world E)
    (e : exn) (out : string) :
  guarded yaduha repo_path (entry repo_path w) = (Raises e, w1) ->
  validate_language yaduha repo_path w = (Returns out, w1) ->
  validate_language other repo_path' w' = (Returns out, w1') ->
  exists e' : exn,
    guarded other repo_path' (entry repo_path' w') = (Raises e', w1')
    /\ isinstance e' "Exception" = true.
Proof.
  intros Hg Hrun Hrun'.
  assert (Hout : json_loads out
                 = Some (failure_json (exn_str e) (cls_name (exn_cls e)))).
  { rewrite validate_language_eq, Hg in Hrun.
    change (raised_isinstance e "Exception")
      with (isinstance e "Exception") in Hrun.
    destruct (isinstance e "Exception"); [|discriminate].
    rewrite json_dumps_failure in Hrun. injection Hrun as <-.
    apply json_loads_failure. }
  apply validate_language_returns in Hrun'.
  destruct Hrun' as [(e' & Hg' & He' & _)
                    | (c & n & ns & jc & jn & jts & _ & _ & _ & _ & ->)].
  - exists e'. auto.
  - apply json_loads_encode_inv in Hout. destruct Hout as (Hout & _).
    discriminate Hout.
Qed.

(** A Success record is never written for a run that did not load a
    package: when the output has [valid] true, the import and the loader
    returned, all three fields were read, [sentence_types] was iterated
    over, and the output has one entry per item, in order, each the JSON
    form of that item's type name. *)
Theorem success_is_genuine
    (repo_path : string) (w w' : world E) (out : string) (j : json) :
  validate_language yaduha repo_path w = (Returns out, w') ->
  json_loads out = Some j ->
  field "valid" (is_bool true) j = true ->
  exists w1 language code name sentence_types items jc jn jts,
    import_LanguageLoader yaduha (entry repo_path w) = (Returns tt, w1)
    /\ load_language_from_source yaduha repo_path w1 = (Returns language, w')
    /\ getattr language "code" = Returns code
    /\ getattr language "name" = Returns name
    /\ getattr language "sentence_types" = Returns sentence_types
    /\ iterate sentence_types = Returns items
    /\ to_json code = Returns jc
    /\ to_json name = Returns jn
    /\ Forall2 (fun st jt => exists t, getattr st "__name__" = Returns t
                                       /\ to_json t = Returns jt) items jts
    /\ j = success_json jc jn jts.
Proof.
  intros Hrun Hout Hvalid. apply validate_language_returns in Hrun.
  destruct Hrun as [(e & _ & _ & ->)
                   | (code & name & names & jc & jn & jts
                      & Hg & Hc & Hn & Hts & ->)].
  { rewrite json_loads_failure in Hout. injection Hout as <-.
    discriminate Hvalid. }
  apply json_loads_encode_inv in Hout. destruct Hout as (-> & _).
  rewrite guarded_eq in Hg.
  destruct (import_LanguageLoader yaduha (entry repo_path w))
    as [[[]|e1] w1] eqn:Himp; [|discriminate].
  destruct (load_language_from_source yaduha repo_path w1)
    as [[language|e2] w2] eqn:Hload; [|discriminate].
  injection Hg as Hx <-. apply extract_fields_returns in Hx.
  destruct Hx as (code' & name' & sts & items & names'
                  & Hcode & Hname & Hsts & Hiter & Hnames & Hr).
  injection Hr as <- <- <-.
  exists w1, language, code, name, sts, items, jc, jn, jts.
  repeat split; try assumption.
  clear - Hnames Hts. revert names jts Hnames Hts.
  induction items as [|st items IH]; intros [|t names] jts Hnames Hts;
    try discriminate; destruct jts as [|jt jts]; try discriminate.
  - constructor.
  - simpl in Hnames, Hts. injection Hnames as Hst Hnames.
    injection Hts as Ht Hts. constructor; eauto.
Qed.


End Further.

(** ** Concrete runs, continued *)

Lemma serializer_refusal_escapes_witness :
  validate_language (loader_returning wrapped_code_language) "/repo"
    fresh_process
  = (Raises (TypeError "Object of type LanguageCode is not JSON serializable"),
     mkWorld ["/repo"; "/lib/python311.zip"] 1)
  /\ forall out w'',
       validate_language (loader_returning wrapped_code_language) "/repo"
         fresh_process
       <> (Returns out, w'').
Proof.
  apply (serializer_refusal_escapes (loader_returning wrapped_code_language)
           "/repo" fresh_process (mkWorld ["/repo"; "/lib/python311.zip"] 1)
           (success_record (PyObj "LanguageCode" [("value", PyStr "num")])
              (PyStr "Numeric Language")
              [PyStr "Declarative"; PyStr "Question"]));
    reflexivity.
Defined.

(** A failure whose [str] raises: what [str] raised leaves the function. *)
Lemma escaping_failures_witness :
  validate_language unprintable_loader "/repo" fresh_process
  = (Raises (mkExn (mkClass "ZeroDivisionError"
                      ["ArithmeticError"; "Exception"; "BaseException";
                       "object"])
               "division by zero"),
     mkWorld ["/repo"; "/lib/python311.zip"] 1).
Proof.
  apply (proj2 (escaping_failures unprintable_loader "/repo"
                  fresh_process (mkWorld ["/repo"; "/lib/python311.zip"] 1) _)).
  right. left. exists (exception_class "PackageError").
  split; reflexivity.
Defined.

Lemma non_iterable_sentence_types_reported_witness :
  exists out,
    validate_language (loader_returning typeless_language) "/repo"
      fresh_process
    = (Returns out, mkWorld ["/repo"; "/lib/python311.zip"] 1)
    /\ json_loads out
       = Some (failure_json "'NoneType' object is not iterable" "TypeError").
Proof.
  apply (non_iterable_sentence_types_reported
           (loader_returning typeless_language) "/repo" fresh_process
           (entry "/repo" fresh_process)
           (mkWorld ["/repo"; "/lib/python311.zip"] 1) typeless_language
           (PyStr "num") (PyStr "Numeric Language") PyNone);
    reflexivity.
Defined.

Lemma first_missing_field_reported_witness :
  exists out,
    validate_language (loader_returning bare_language) "/repo" fresh_process
    = (Returns out, mkWorld ["/repo"; "/lib/python311.zip"] 1)
    /\ json_loads out
       = Some (failure_json "'Language' object has no attribute 'code'"
                 "AttributeError").
Proof.
  apply (first_missing_field_reported (loader_returning bare_language) "/repo"
           fresh_process (entry "/repo" fresh_process)
           (mkWorld ["/repo"; "/lib/python311.zip"] 1) "Language" [] "code");
    reflexivity.
Defined.

(** A message with a line break and a character beyond ASCII. *)
Lemma output_is_printable_ascii_witness :
  all_printable
    (encode (failure_json (String "010" (String "233" "chec"))
               "ValueError"))
  = true.
Proof.
  apply (output_is_printable_ascii
           (loader_raising (ValueError (String "010" (String "233" "chec"))))
           "/repo" fresh_process (mkWorld ["/repo"; "/lib/python311.zip"] 1)).
  reflexivity.
Defined.

(** The same failure, once from the loader and once from the import. *)
Lemma failure_text_not_forged_witness :
  exists e' : exn,
    guarded (mkLoader (raise (ValueError "no such package"))
               (fun _ => ret numeric_language))
      "/other" (entry "/other" fresh_process)
    = (Raises e', mkWorld ["/other"; "/lib/python311.zip"] 0)
    /\ isinstance e' "Exception" = true.
Proof.
  apply (failure_text_not_forged
           (loader_raising (ValueError "no such package"))
           (mkLoader (raise (ValueError "no such package"))
              (fun _ => ret numeric_language))
           "/repo" "/other" fresh_process
           (mkWorld ["/repo"; "/lib/python311.zip"] 1) fresh_process
           (mkWorld ["/other"; "/lib/python311.zip"] 0)
           (ValueError "no such package")
           (encode (failure_json "no such package" "ValueError")));
    reflexivity.
Defined.


Lemma success_is_genuine_witness :
  exists w1 language code name sentence_types items jc jn jts,
    import_LanguageLoader (loader_returning numeric_language)
      (entry "/repo" fresh_process)
    = (Returns tt, w1)
    /\ load_language_from_source (loader_returning numeric_language) "/repo" w1
       = (Returns language, mkWorld ["/repo"; "/lib/python311.zip"] 1)
    /\ getattr language "code" = Returns code
    /\ getattr language "name" = Returns name
    /\ getattr language "sentence_types" = Returns sentence_types
    /\ iterate sentence_types = Returns items
    /\ to_json code = Returns jc
    /\ to_json name = Returns jn
    /\ Forall2 (fun st jt => exists t, getattr st "__name__" = Returns t
                                       /\ to_json t = Returns jt) items jts
    /\ success_json (JStr "num") (JStr "Numeric Language")
         [JStr "Declarative"; JStr "Question"]
       = success_json jc jn jts.
Proof.
  apply (success_is_genuine (loader_returning numeric_language) "/repo"
           fresh_process (mkWorld ["/repo"; "/lib/python311.zip"] 1)
           (encode (success_json (JStr "num") (JStr "Numeric Language")
                      [JStr "Declarative"; JStr "Question"])));
    reflexivity.
Defined.
